(** * Open WebUI / Bedrock deployment glue

    A shallow embedding of the three artifacts of the repository:

    - [debug-openwebui.sh], the container diagnostics script,
    - [run-bedrock.sh], the Docker Compose start-up script,
    - [General.svelte], the document settings panel.

    The two scripts are written in a small shell monad over an abstract
    host (the machine the operator runs them on); the panel is a render
    function from the component's inputs to a markup tree, with an event
    dispatcher that reads bindings and handlers off the rendered tree. *)

From Stdlib Require Import String Ascii List Bool Arith Lia.
Import ListNotations.
Local Open Scope string_scope.
Local Open Scope list_scope.

(** ** Text filters of the pipelines *)

Module Text.

(** [contains pat s]: [pat] occurs in [s].  This is what [grep] decides
    for a pattern without regular-expression operators. *)
Fixpoint contains (pat s : string) : bool :=
  prefix pat s ||
  match s with
  | EmptyString => false
  | String _ rest => contains pat rest
  end.

(** ASCII case folding, for [grep -i]. *)
Definition lower_ascii (c : ascii) : ascii :=
  let n := nat_of_ascii c in
  if Nat.leb 65 n && Nat.leb n 90 then ascii_of_nat (n + 32) else c.

Fixpoint lower (s : string) : string :=
  match s with
  | EmptyString => EmptyString
  | String c rest => String (lower_ascii c) (lower rest)
  end.

(** [grep -q pat]: status 0 when some input line matches, 1 otherwise;
    nothing is printed. *)
Definition grep_q (pat : string) (input : list string) : nat :=
  if existsb (contains pat) input then 0 else 1.

(** [grep -E "(a|b|...)"]: the lines in which one of the alternatives
    occurs. *)
Definition grep_E (alts : list string) (input : list string) : list string :=
  filter (fun line => existsb (fun a => contains a line) alts) input.

(** [grep -i -E "(a|b|...)"]: the same, ignoring case. *)
Definition grep_iE (alts : list string) (input : list string) : list string :=
  filter (fun line => existsb (fun a => contains (lower a) (lower line)) alts)
         input.

(** [sort], in byte order. *)
Fixpoint insert_line (x : string) (l : list string) : list string :=
  match l with
  | [] => [x]
  | y :: rest => if String.leb x y then x :: l else y :: insert_line x rest
  end.

Definition sort (input : list string) : list string :=
  fold_right insert_line [] input.

(** [tail -n]: the last [n] lines. *)
Definition tail (n : nat) (input : list string) : list string :=
  skipn (length input - n) input.

End Text.

(** ** The host and the shell monad *)

Module Shell.

Inductive fd := Stdout | Stderr.

(** What an external program leaves behind: its exit status and the
    lines it wrote, in the order it wrote them. *)
Record result := { status : nat; output : list (fd * string) }.

Definition lines_of (d : fd) (r : result) : list string :=
  map snd (filter (fun l => match fst l, d with
                            | Stdout, Stdout | Stderr, Stderr => true
                            | _, _ => false
                            end) (output r)).

(** The machine the scripts run on.  [run argv] executes an external
    program ([docker], [docker-compose], [curl], [sleep]) and may change
    the machine; [is_file] answers [[ -f path ]]. *)
Class Host (W : Type) := {
  run : list string -> W -> W * result;
  is_file : string -> W -> bool
}.

(** What the operator sees on the terminal. *)
Inductive tline :=
| Line (d : fd) (s : string)
| Partial (s : string).          (* [echo -n]: no newline *)

Inductive answer (A : Type) :=
| Ret (a : A)
| Exit (code : nat).
Arguments Ret {A} a.
Arguments Exit {A} code.

Section Monad.
Context {W : Type} `{Host W}.

Record session := {
  host : W;
  terminal : list tline;
  trace : list (list string)     (* the external programs started *)
}.

Definition sh (A : Type) := session -> session * answer A.

Definition ret {A} (a : A) : sh A := fun s => (s, Ret a).

Definition bind {A B} (c : sh A) (k : A -> sh B) : sh B :=
  fun s =>
    match c s with
    | (s', Ret a) => k a s'
    | (s', Exit n) => (s', Exit n)
    end.

Definition exit {A} (n : nat) : sh A := fun s => (s, Exit n).

Definition print (ls : list tline) : sh unit :=
  fun s => ({| host := host s;
               terminal := terminal s ++ ls;
               trace := trace s |}, Ret tt).

(** Start an external program and wait for it. *)
Definition spawn (argv : list string) : sh result :=
  fun s =>
    let (w, r) := run argv (host s) in
    ({| host := w; terminal := terminal s; trace := trace s ++ [argv] |},
     Ret r).

Definition test_f (path : string) : sh nat :=
  fun s => (s, Ret (if is_file path (host s) then 0 else 1)).

End Monad.

Arguments session W : clear implicits.
Arguments sh W A : clear implicits.

Declare Scope sh_scope.
Delimit Scope sh_scope with sh.
Notation "x <- c ;; k" := (bind c (fun x => k))
  (at level 61, c at next level, right associativity) : sh_scope.
Notation "c ;; k" := (bind c (fun _ => k))
  (at level 61, right associativity) : sh_scope.
Local Open Scope sh_scope.

(** How a command's two output streams are wired. *)
Inductive wiring :=
| Show        (* to the terminal *)
| Pipe        (* into the pipeline *)
| Drop.       (* to /dev/null *)

Section Commands.
Context {W : Type} `{Host W}.

(** [echo s] and [echo -n s]. *)
Definition echo (s : string) : sh W nat :=
  print [Line Stdout s] ;; ret 0.

Definition echo_n (s : string) : sh W nat :=
  print [Partial s] ;; ret 0.

Definition shown (out err : wiring) (r : result) : list tline :=
  flat_map (fun l =>
              match fst l, out, err with
              | Stdout, Show, _ => [Line Stdout (snd l)]
              | Stderr, _, Show => [Line Stderr (snd l)]
              | _, _, _ => []
              end) (output r).

Definition piped (out err : wiring) (r : result) : list string :=
  flat_map (fun l =>
              match fst l, out, err with
              | Stdout, Pipe, _ => [snd l]
              | Stderr, _, Pipe => [snd l]
              | _, _, _ => []
              end) (output r).

(** A simple command: [out] and [err] say where its streams go
    ([2>/dev/null] is [err := Drop], [&>/dev/null] drops both). *)
Definition command (out err : wiring) (argv : list string) : sh W nat :=
  r <- spawn argv ;;
  print (shown out err r) ;;
  ret (status r).

(** The head of a pipeline: standard output goes into the pipe
    ([2>&1] is [err := Pipe]); what is not piped is wired as usual. *)
Definition source (err : wiring) (argv : list string) : sh W (list string) :=
  r <- spawn argv ;;
  print (shown Pipe err r) ;;
  ret (piped Pipe err r).

(** The end of a pipeline that prints. *)
Definition sink (ls : list string) : sh W nat :=
  print (map (Line Stdout) ls) ;; ret 0.

(** [a && b], [a || b], [! a] ([negate]), [if a; then b; else c; fi], [true]. *)
Definition and_then (a b : sh W nat) : sh W nat :=
  st <- a ;; if Nat.eqb st 0 then b else ret st.

Definition or_else (a b : sh W nat) : sh W nat :=
  st <- a ;; if Nat.eqb st 0 then ret 0 else b.

Definition negate (a : sh W nat) : sh W nat :=
  st <- a ;; ret (if Nat.eqb st 0 then 1 else 0).

Definition if_then_else (c a b : sh W nat) : sh W nat :=
  st <- c ;; if Nat.eqb st 0 then a else b.

Definition if_then (c a : sh W nat) : sh W nat :=
  if_then_else c a (ret 0).

Definition true_ : sh W nat := ret 0.

(** Running a script from a fresh terminal: the final session and the
    script's exit status. *)
Definition start (w : W) : session W :=
  {| host := w; terminal := []; trace := [] |}.

Definition exit_status (a : answer nat) : nat :=
  match a with Ret n => n | Exit n => n end.

Definition run_script (p : sh W nat) (w : W) : session W * nat :=
  let (s, a) := p (start w) in (s, exit_status a).

(** [wp c Q s]: run from [s], [c] ends in a session and an answer
    that satisfy [Q]. *)
Definition wp {A} (c : sh W A) (Q : session W -> answer A -> Prop)
           (s : session W) : Prop :=
  Q (fst (c s)) (snd (c s)).

End Commands.

End Shell.

(** ** debug-openwebui.sh *)

Module Debug.
Import Shell Text.
Local Open Scope sh_scope.

Definition docker_ps := ["docker"; "ps"].
Definition docker_ps_details :=
  ["docker"; "ps"; "--filter"; "name=open-webui"; "--format";
   "table {{.Names}}\t{{.Status}}\t{{.Ports}}"].
Definition docker_exec_env := ["docker"; "exec"; "open-webui"; "env"].
Definition docker_logs := ["docker"; "logs"; "open-webui"].
Definition docker_exec_ls :=
  ["docker"; "exec"; "open-webui"; "ls"; "-la"; "/app/backend/data/"].
Definition docker_exec_ping :=
  ["docker"; "exec"; "open-webui"; "ping"; "-c"; "1"; "host.docker.internal"].
Definition curl_status :=
  ["curl"; "-s"; "-o"; "/dev/null"; "-w"; "%{http_code}";
   "http://localhost:3000"].

Section Script.
Context {W : Type} `{Host W}.

(** Lines 37-39: the port check. *)
Definition port_check : sh W nat :=
  echo_n "Port 3000 is accessible: " ;;
  or_else
    (and_then (code <- source Show curl_status ;; ret (grep_q "500" code))
              (echo "❌ Returns 500"))
    (echo "✅ OK").

(** Lines 9-39: the branch taken when the container is listed. *)
Definition diagnose : sh W nat :=
  echo "✅ Container is running" ;;
  echo "" ;;
  echo "📦 Container Details:" ;;
  command Show Show docker_ps_details ;;
  echo "" ;;
  echo "🔧 Environment Variables:" ;;
  (vars <- source Show docker_exec_env ;;
   sink (sort (grep_E ["OLLAMA"; "OPENAI"; "WEBUI"; "DATABASE"] vars))) ;;
  echo "" ;;
  echo "📋 Recent Error Logs:" ;;
  (logs <- source Pipe docker_logs ;;
   sink (tail 20 (grep_iE ["error"; "exception"; "failed"; "500"] logs))) ;;
  echo "" ;;
  echo "💾 Database Status:" ;;
  or_else (command Show Drop docker_exec_ls)
          (echo "Cannot access data directory") ;;
  echo "" ;;
  echo "🌐 Network Tests:" ;;
  echo_n "Container can reach host: " ;;
  or_else (and_then (command Drop Drop docker_exec_ping) (echo "✅ Yes"))
          (echo "❌ No") ;;
  port_check.

(** Lines 42-53: the branch taken otherwise; the [docker run] command
    is printed for the operator, not executed. *)
Definition advise : sh W nat :=
  echo "❌ Container is not running!" ;;
  echo "" ;;
  echo "🚀 To start the container, run:" ;;
  echo "docker run -d -p 3000:8080 \" ;;
  echo "  -e ENABLE_OLLAMA_API=false \" ;;
  echo "  -e ENABLE_OPENAI_API=true \" ;;
  echo "  -e OPENAI_API_BASE_URL=http://host.docker.internal:8000/api/v1 \" ;;
  echo "  -e OPENAI_API_KEY=bedrock \" ;;
  echo "  -v open-webui:/app/backend/data \" ;;
  echo "  --name open-webui \" ;;
  echo "  --restart always \" ;;
  echo "  open-webui".

Definition debug_openwebui : sh W nat :=
  echo "🔍 Open WebUI Debug Script" ;;
  echo "=========================" ;;
  echo "" ;;
  if_then_else
    (listing <- source Show docker_ps ;; ret (grep_q "open-webui" listing))
    diagnose
    advise ;;
  echo "" ;;
  echo "💡 Common fixes for 500 error:" ;;
  echo "1. Clear browser cache and cookies" ;;
  echo "2. Try incognito mode" ;;
  echo "3. Access http://localhost:3000/ollama first" ;;
  echo "4. Remove and recreate the volume" ;;
  echo "5. Check if Bedrock Gateway is running on port 8000".

End Script.
End Debug.

(** ** run-bedrock.sh *)

Module RunBedrock.
Import Shell Text.
Local Open Scope sh_scope.

Definition docker_info := ["docker"; "info"].
Definition docker_images := ["docker"; "images"].
Definition docker_ps := ["docker"; "ps"].
Definition compose_down :=
  ["docker-compose"; "-f"; "docker-compose.bedrock.yaml"; "down"].
Definition compose_up :=
  ["docker-compose"; "--env-file"; ".env.bedrock"; "-f";
   "docker-compose.bedrock.yaml"; "up"; "-d"].
Definition sleep_5 := ["sleep"; "5"].

Section Script.
Context {W : Type} `{Host W}.

(** Lines 71-82. *)
Definition check_env_file : sh W nat :=
  if_then (negate (test_f ".env.bedrock"))
    (echo "Error: .env.bedrock file not found!" ;;
     echo "" ;;
     echo "Please create a .env.bedrock file with your AWS credentials:" ;;
     echo "" ;;
     echo "AWS_ACCESS_KEY_ID=your_aws_access_key_here" ;;
     echo "AWS_SECRET_ACCESS_KEY=your_aws_secret_key_here" ;;
     echo "AWS_REGION=us-east-1" ;;
     echo "WEBUI_SECRET_KEY=your_random_secret_key_here" ;;
     echo "" ;;
     exit 1).

(** Lines 85-89. *)
Definition check_docker : sh W nat :=
  if_then (negate (command Drop Drop docker_info))
    (echo "Error: Docker is not running!" ;;
     echo "Please start Docker and try again." ;;
     exit 1).

(** Lines 92-100. *)
Definition check_gateway_image : sh W nat :=
  if_then (negate (images <- source Show docker_images ;;
                ret (grep_q "bedrock-gateway" images)))
    (echo "Error: bedrock-gateway image not found!" ;;
     echo "" ;;
     echo "Please build it first:" ;;
     echo "1. Clone: git clone https://github.com/aws-samples/bedrock-access-gateway.git" ;;
     echo "2. Build: cd bedrock-access-gateway/src && docker build . -f Dockerfile_ecs -t bedrock-gateway" ;;
     echo "" ;;
     exit 1).

(** Lines 103-110. *)
Definition check_webui_image : sh W nat :=
  if_then (negate (images <- source Show docker_images ;;
                ret (grep_q "open-webui" images)))
    (echo "Error: open-webui image not found!" ;;
     echo "" ;;
     echo "Please build it first:" ;;
     echo "docker build -t open-webui ." ;;
     echo "" ;;
     exit 1).

(** Lines 113-118. *)
Definition restart_stack : sh W nat :=
  echo "Stopping any existing containers..." ;;
  or_else (command Show Drop compose_down) true_ ;;
  echo "Starting services..." ;;
  command Show Show compose_up.

(** Lines 121-144. *)
Definition await_services : sh W nat :=
  echo "" ;;
  echo "Waiting for services to start..." ;;
  command Show Show sleep_5 ;;
  if_then_else
    (and_then
       (listing <- source Show docker_ps ;;
        ret (grep_q "bedrock-gateway" listing))
       (listing <- source Show docker_ps ;;
        ret (grep_q "open-webui" listing)))
    (echo "" ;;
     echo "Services started successfully!" ;;
     echo "" ;;
     echo "Open WebUI: http://localhost:3000" ;;
     echo "Bedrock Gateway API: http://localhost:8000/docs" ;;
     echo "" ;;
     echo "First time setup:" ;;
     echo "1. Create an account at http://localhost:3000" ;;
     echo "2. AWS Bedrock models should appear automatically" ;;
     echo "" ;;
     echo "To stop: docker-compose -f docker-compose.bedrock.yaml down" ;;
     echo "View logs: docker-compose -f docker-compose.bedrock.yaml logs -f")
    (echo "" ;;
     echo "Error: Services failed to start!" ;;
     echo "Check logs with: docker-compose -f docker-compose.bedrock.yaml logs" ;;
     exit 1).

Definition run_bedrock : sh W nat :=
  echo "Starting Open WebUI with AWS Bedrock Integration" ;;
  echo "" ;;
  check_env_file ;;
  check_docker ;;
  check_gateway_image ;;
  check_webui_image ;;
  restart_stack ;;
  await_services.

End Script.
End RunBedrock.

(** ** What a command line does to the machine *)

Module Docker.
Import Shell.

Definition mentions (x : string) (l : list string) : bool :=
  existsb (String.eqb x) l.

(** The [docker] subcommands that only report ([ps], [info], [images],
    [logs]), [docker exec] of a reporting program ([env], [ls], [ping]),
    a [curl] GET whose body is discarded, and [sleep].  Everything
    else ([docker run], [docker rm], [docker-compose up] and [down], a
    [curl] upload, ...) counts as changing the machine. *)
Definition read_only (argv : list string) : bool :=
  match argv with
  | [] => false
  | prog :: args =>
      if prog =? "docker" then
        match args with
        | [] => false
        | sub :: rest =>
            if mentions sub ["ps"; "info"; "images"; "logs"] then true
            else if sub =? "exec" then
              match rest with
              | _ :: tool :: _ => mentions tool ["env"; "ls"; "ping"]
              | _ => false
              end
            else false
        end
      else if prog =? "curl" then
        negb (existsb (fun a => mentions a ["-X"; "--request"; "-d"; "--data";
                                            "-F"; "--form"; "-T";
                                            "--upload-file"]) args)
        && mentions "/dev/null" args
      else prog =? "sleep"
  end.

Section Replay.
Context {W : Type} `{Host W}.

(** The machine after a sequence of programs has run on it. *)
Definition replay (l : list (list string)) (w : W) : W :=
  fold_left (fun m argv => fst (run argv m)) l w.

(** A view of the machine that no read-only program changes:
    container state, configuration, data. *)
Definition preserved_by_reads {S : Type} (view : W -> S) : Prop :=
  forall argv m, read_only argv = true -> view (fst (run argv m)) = view m.

End Replay.
End Docker.

(** ** General.svelte *)

Module General.

(** A JavaScript value that may be missing. *)
Inductive nullable (A : Type) :=
| Undefined
| Null
| Val (a : A).
Arguments Undefined {A}.
Arguments Null {A}.
Arguments Val {A} a.

(** [x?.f] *)
Definition optional {A B} (x : nullable A) (f : A -> nullable B) : nullable B :=
  match x with
  | Val a => f a
  | _ => Undefined
  end.

(** [x ?? d] *)
Definition coalesce {A} (x : nullable A) (d : A) : A :=
  match x with
  | Val a => a
  | _ => d
  end.

(** The part of the [$config] store the template reads.  The store's
    declaration lives in [$lib/stores]; the flag is a boolean that may
    be missing at every level of the path. *)
Record features_t := { enable_admin_export : nullable bool }.
Record config_t := { features : nullable features_t }.

Inductive flag :=
| UseAdvancedRetrieval
| EnableQueryExpansion
| EnableDocumentReranking
| EnableSemanticChunking.

Inductive mode := ChatUpload | KnowledgeBase.

Inductive limit := MaxSize | MaxCount.

(** The two closures of the template: the export button's [on:click]
    and the [() => { updateHandler(); }] shared by the eight inputs. *)
Inductive handler := ExportClick | CallUpdateHandler.

Inductive dom_event := Click | Change | Input.

Definition flag_eqb (a b : flag) : bool :=
  match a, b with
  | UseAdvancedRetrieval, UseAdvancedRetrieval
  | EnableQueryExpansion, EnableQueryExpansion
  | EnableDocumentReranking, EnableDocumentReranking
  | EnableSemanticChunking, EnableSemanticChunking => true
  | _, _ => false
  end.

Definition mode_eqb (a b : mode) : bool :=
  match a, b with
  | ChatUpload, ChatUpload | KnowledgeBase, KnowledgeBase => true
  | _, _ => false
  end.

Definition limit_eqb (a b : limit) : bool :=
  match a, b with
  | MaxSize, MaxSize | MaxCount, MaxCount => true
  | _, _ => false
  end.

Section Component.
(** JavaScript numbers (the component never computes with them), the
    state of whoever owns [updateHandler], and [$i18n.t]. *)
Context {number : Type} {E : Type} (t : string -> string).

(** Modelled from the spec: the shape of [RAGConfig] is defined by the
    external backend.  The data model gives it boolean flags, two
    string processing modes and two numeric limits; the field names
    are those the template binds. *)
Record rag_config := {
  USE_ADVANCED_RETRIEVAL : bool;
  ENABLE_QUERY_EXPANSION : bool;
  ENABLE_DOCUMENT_RERANKING : bool;
  ENABLE_SEMANTIC_CHUNKING : bool;
  CHAT_UPLOAD_PROCESSING_MODE : string;
  KNOWLEDGE_BASE_PROCESSING_MODE : string;
  FILE_MAX_SIZE : nullable number;
  FILE_MAX_COUNT : nullable number
}.

Definition get_flag (f : flag) (r : rag_config) : bool :=
  match f with
  | UseAdvancedRetrieval => USE_ADVANCED_RETRIEVAL r
  | EnableQueryExpansion => ENABLE_QUERY_EXPANSION r
  | EnableDocumentReranking => ENABLE_DOCUMENT_RERANKING r
  | EnableSemanticChunking => ENABLE_SEMANTIC_CHUNKING r
  end.

Definition get_mode (m : mode) (r : rag_config) : string :=
  match m with
  | ChatUpload => CHAT_UPLOAD_PROCESSING_MODE r
  | KnowledgeBase => KNOWLEDGE_BASE_PROCESSING_MODE r
  end.

Definition get_limit (l : limit) (r : rag_config) : nullable number :=
  match l with
  | MaxSize => FILE_MAX_SIZE r
  | MaxCount => FILE_MAX_COUNT r
  end.

Definition set_flag (f : flag) (b : bool) (r : rag_config) : rag_config :=
  {| USE_ADVANCED_RETRIEVAL :=
       if flag_eqb f UseAdvancedRetrieval then b else USE_ADVANCED_RETRIEVAL r;
     ENABLE_QUERY_EXPANSION :=
       if flag_eqb f EnableQueryExpansion then b else ENABLE_QUERY_EXPANSION r;
     ENABLE_DOCUMENT_RERANKING :=
       if flag_eqb f EnableDocumentReranking then b
       else ENABLE_DOCUMENT_RERANKING r;
     ENABLE_SEMANTIC_CHUNKING :=
       if flag_eqb f EnableSemanticChunking then b
       else ENABLE_SEMANTIC_CHUNKING r;
     CHAT_UPLOAD_PROCESSING_MODE := CHAT_UPLOAD_PROCESSING_MODE r;
     KNOWLEDGE_BASE_PROCESSING_MODE := KNOWLEDGE_BASE_PROCESSING_MODE r;
     FILE_MAX_SIZE := FILE_MAX_SIZE r;
     FILE_MAX_COUNT := FILE_MAX_COUNT r |}.

Definition set_mode (m : mode) (v : string) (r : rag_config) : rag_config :=
  {| USE_ADVANCED_RETRIEVAL := USE_ADVANCED_RETRIEVAL r;
     ENABLE_QUERY_EXPANSION := ENABLE_QUERY_EXPANSION r;
     ENABLE_DOCUMENT_RERANKING := ENABLE_DOCUMENT_RERANKING r;
     ENABLE_SEMANTIC_CHUNKING := ENABLE_SEMANTIC_CHUNKING r;
     CHAT_UPLOAD_PROCESSING_MODE :=
       if mode_eqb m ChatUpload then v else CHAT_UPLOAD_PROCESSING_MODE r;
     KNOWLEDGE_BASE_PROCESSING_MODE :=
       if mode_eqb m KnowledgeBase then v
       else KNOWLEDGE_BASE_PROCESSING_MODE r;
     FILE_MAX_SIZE := FILE_MAX_SIZE r;
     FILE_MAX_COUNT := FILE_MAX_COUNT r |}.

Definition set_limit (l : limit) (v : nullable number) (r : rag_config)
  : rag_config :=
  {| USE_ADVANCED_RETRIEVAL := USE_ADVANCED_RETRIEVAL r;
     ENABLE_QUERY_EXPANSION := ENABLE_QUERY_EXPANSION r;
     ENABLE_DOCUMENT_RERANKING := ENABLE_DOCUMENT_RERANKING r;
     ENABLE_SEMANTIC_CHUNKING := ENABLE_SEMANTIC_CHUNKING r;
     CHAT_UPLOAD_PROCESSING_MODE := CHAT_UPLOAD_PROCESSING_MODE r;
     KNOWLEDGE_BASE_PROCESSING_MODE := KNOWLEDGE_BASE_PROCESSING_MODE r;
     FILE_MAX_SIZE := if limit_eqb l MaxSize then v else FILE_MAX_SIZE r;
     FILE_MAX_COUNT := if limit_eqb l MaxCount then v else FILE_MAX_COUNT r |}.

(** *** Markup *)

(** Attributes and directives.  A binding carries the value it
    currently shows. *)
Inductive attr :=
| class (s : string)
| type_ (s : string)
| className (s : string)
| placeholder (s : string)
| value (s : string)
| bind_checked (f : flag) (shown : bool)
| bind_value_mode (m : mode) (shown : string)
| bind_value_limit (l : limit) (shown : nullable number)
| on_click (h : handler)
| on_change (h : handler).

#[warnings="-register-all"] Inductive node :=
| text (s : string)
| el (tag : string) (attrs : list attr) (children : list node).

(** Lines 18-55. *)
Definition export_section : node :=
  el "div" []
    [el "div" [class "py-0.5 flex w-full justify-between"]
       [el "div" [class "self-center text-xs font-medium"]
          [text (t "Export Documents Workspace")];
        el "button"
          [class "text-xs px-3 py-1.5 rounded flex gap-1 items-center bg-gray-50 hover:bg-gray-100 dark:bg-gray-850 dark:hover:bg-gray-800 transition";
           type_ "button";
           on_click ExportClick]
          [el "ArrowDownTray" [className "size-3"] [];
           text (t "Export All")]]].

(** A labelled checkbox, as on lines 65-77, 81-93, 95-107, 109-121. *)
Definition checkbox (f : flag) (label : string) (r : rag_config) : node :=
  el "div" []
    [el "label" [class "flex items-center text-xs"]
       [el "input" [type_ "checkbox"; class "mr-2";
                    bind_checked f (get_flag f r);
                    on_change CallUpdateHandler] [];
        text (t label)]].

(** A processing-mode select, as on lines 123-136 and 138-151. *)
Definition mode_select (m : mode) (label : string) (r : rag_config) : node :=
  el "div" [class "flex flex-col gap-1"]
    [el "label" [class "text-xs font-medium"] [text (t label)];
     el "select"
       [class "w-full rounded-lg py-2 px-3 text-xs bg-gray-50 dark:bg-gray-850 dark:text-gray-100";
        bind_value_mode m (get_mode m r);
        on_change CallUpdateHandler]
       [el "option" [value "full_context"] [text (t "Full Context")];
        el "option" [value "chunked_vectorized"]
          [text (t "Chunked & Vectorized")];
        el "option" [value "hybrid"] [text (t "Hybrid")]]].

(** A numeric limit input, as on lines 163-174 and 176-187. *)
Definition limit_input (l : limit) (label : string) (r : rag_config) : node :=
  el "div" [class "flex-1"]
    [el "label" [class "text-xs font-medium mb-1"] [text (t label)];
     el "input"
       [type_ "number";
        class "w-full rounded-lg py-2 px-3 text-xs bg-gray-50 dark:bg-gray-850 dark:text-gray-100";
        placeholder (t "No limit");
        bind_value_limit l (get_limit l r);
        on_change CallUpdateHandler] []].

(** Lines 80-152: what [{#if RAGConfig.USE_ADVANCED_RETRIEVAL}] guards. *)
Definition advanced_options (r : rag_config) : node :=
  el "div" [class "ml-4 space-y-2"]
    [checkbox EnableQueryExpansion "Enable Query Expansion" r;
     checkbox EnableDocumentReranking "Enable Document Reranking" r;
     checkbox EnableSemanticChunking "Enable Semantic Chunking" r;
     mode_select ChatUpload "Chat Upload Processing Mode" r;
     mode_select KnowledgeBase "Knowledge Base Processing Mode" r].

(** Lines 59-189: what [{#if RAGConfig}] guards. *)
Definition settings (r : rag_config) : list node :=
  [el "hr" [class "dark:border-gray-850 my-2"] [];
   el "div" [class "space-y-3"]
     [el "div" [class "flex flex-col gap-2"]
        ([el "div" [class "text-sm font-medium"]
            [text (t "Advanced Retrieval Settings")];
          checkbox UseAdvancedRetrieval "Enable Advanced Retrieval" r]
         ++ (if USE_ADVANCED_RETRIEVAL r then [advanced_options r] else []))];
   el "hr" [class "dark:border-gray-850 my-2"] [];
   el "div" []
     [el "div" [class "mb-2 text-sm font-medium"]
        [text (t "File Upload Limit")];
      el "div" [class "flex w-full gap-2"]
        [limit_input MaxSize "Max File Size (MB)" r;
         limit_input MaxCount "Max File Count" r]]].

(** The template, lines 14-191.  An object is truthy, [null] and
    [undefined] are not. *)
Definition render (config : nullable config_t)
                  (RAGConfig : nullable rag_config) : list node :=
  [el "div" [class "mb-2 text-sm font-medium"] [text (t "General Settings")];
   el "div" [class "flex flex-col space-y-3"]
     ((if coalesce (optional (optional config features) enable_admin_export)
                   true
       then [export_section] else [])
      ++ (match RAGConfig with
          | Val r => settings r
          | _ => []
          end))].

(** *** State and events *)

(** The mounted component: the [$config] store, the two props of
    lines 10-11, and the state of the parent that supplied
    [updateHandler].  The parent's callback takes no argument; it
    sees the [RAGConfig] object it shares with the component. *)
Record page := {
  config : nullable config_t;
  updateHandler : nullable rag_config -> E -> E;
  RAGConfig : nullable rag_config;
  parent : E
}.

(** Lines 10-11: [export let updateHandler = () => {}] and
    [export let RAGConfig = null]. *)
Definition default_updateHandler : nullable rag_config -> E -> E :=
  fun _ e => e.

Definition default_RAGConfig : nullable rag_config := Null.

(** Mounting: a prop that is not passed, or passed as [undefined],
    takes its default. *)
Definition mount (cfg : nullable config_t) (e : E)
           (handler_prop : option (nullable rag_config -> E -> E))
           (rag_prop : nullable rag_config) : page :=
  {| config := cfg;
     updateHandler := match handler_prop with
                      | Some h => h
                      | None => default_updateHandler
                      end;
     RAGConfig := match rag_prop with
                  | Undefined => default_RAGConfig
                  | passed => passed
                  end;
     parent := e |}.

(** What the component does to the outside.  The toasts other than
    [toast_info], the API call and the download are those of the
    commented-out body of the export handler (lines 30-48). *)
Inductive effect :=
| toast_info (msg : string)
| toast_error (msg : string)
| toast_success (msg : string)
| api_exportAllKnowledge
| download (file : string)
| wrote_flag (f : flag) (b : bool)
| wrote_mode (m : mode) (v : string)
| wrote_limit (l : limit) (v : nullable number)
| called_updateHandler (seen : nullable rag_config).

Definition with_rag (f : rag_config -> rag_config) (p : page) : page :=
  {| config := config p;
     updateHandler := updateHandler p;
     RAGConfig := match RAGConfig p with
                  | Val r => Val (f r)
                  | other => other
                  end;
     parent := parent p |}.

(** The bodies of the two closures (lines 27-49 and 71-73). *)
Definition run_handler (h : handler) (p : page) : page * list effect :=
  match h with
  | ExportClick =>
      (p, [toast_info (t "Export functionality not yet implemented")])
  | CallUpdateHandler =>
      ({| config := config p;
          updateHandler := updateHandler p;
          RAGConfig := RAGConfig p;
          parent := updateHandler p (RAGConfig p) (parent p) |},
       [called_updateHandler (RAGConfig p)])
  end.

Inductive payload :=
| nothing
| checked (b : bool)
| selected (v : string)
| typed (v : nullable number).

(** What one attribute does when [e] reaches its element.
    [bind:checked] and a select's [bind:value] listen for [change],
    an input's [bind:value] listens for [input]. *)
Definition listener (a : attr) (e : dom_event) (x : payload) (p : page)
  : page * list effect :=
  match a, e, x with
  | bind_checked f _, Change, checked b =>
      (with_rag (set_flag f b) p, [wrote_flag f b])
  | bind_value_mode m _, Change, selected v =>
      (with_rag (set_mode m v) p, [wrote_mode m v])
  | bind_value_limit l _, Input, typed v =>
      (with_rag (set_limit l v) p, [wrote_limit l v])
  | on_click h, Click, _ => run_handler h p
  | on_change h, Change, _ => run_handler h p
  | _, _, _ => (p, [])
  end.

(** The listeners of an element run in the order of its attributes. *)
Fixpoint fire (attrs : list attr) (e : dom_event) (x : payload) (p : page)
  : page * list effect :=
  match attrs with
  | [] => (p, [])
  | a :: rest =>
      let (p1, l1) := listener a e x p in
      let (p2, l2) := fire rest e x p1 in
      (p2, l1 ++ l2)
  end.

Fixpoint elements (n : node) : list node :=
  match n with
  | text _ => []
  | el _ _ children => n :: flat_map elements children
  end.

Definition attrs_of (n : node) : list attr :=
  match n with
  | text _ => []
  | el _ attrs _ => attrs
  end.

Definition tag_of (n : node) : string :=
  match n with
  | text _ => ""
  | el tag _ _ => tag
  end.

Definition children_of (n : node) : list node :=
  match n with
  | text _ => []
  | el _ _ children => children
  end.

(** The [value]s of the options of a select. *)
Definition option_values (n : node) : list string :=
  flat_map (fun c =>
              if tag_of c =? "option" then
                flat_map (fun a => match a with
                                   | value v => [v]
                                   | _ => []
                                   end) (attrs_of c)
              else [])
           (children_of n).

(** The form controls of the template. *)
Inductive control :=
| export_button
| checkbox_of (f : flag)
| select_of (m : mode)
| number_of (l : limit).

Definition is_control (c : control) (n : node) : bool :=
  match c with
  | export_button =>
      (tag_of n =? "button")
      && existsb (fun a => match a with
                           | on_click ExportClick => true
                           | _ => false
                           end) (attrs_of n)
  | checkbox_of f =>
      (tag_of n =? "input")
      && existsb (fun a => match a with
                           | bind_checked g _ => flag_eqb f g
                           | _ => false
                           end) (attrs_of n)
  | select_of m =>
      (tag_of n =? "select")
      && existsb (fun a => match a with
                           | bind_value_mode k _ => mode_eqb m k
                           | _ => false
                           end) (attrs_of n)
  | number_of l =>
      (tag_of n =? "input")
      && existsb (fun a => match a with
                           | bind_value_limit k _ => limit_eqb l k
                           | _ => false
                           end) (attrs_of n)
  end.

Definition locate (c : control) (tree : list node) : option node :=
  find (is_control c) (flat_map elements tree).

Definition rendered (c : control) (tree : list node) : bool :=
  match locate c tree with
  | Some _ => true
  | None => false
  end.

(** What the user can do to the page, as DOM events on a control. *)
Inductive gesture :=
| click_export
| toggle (f : flag) (b : bool)
| choose (m : mode) (index : nat)
| type_in (l : limit) (v : nullable number)
| commit (l : limit).

Definition target (g : gesture) : control :=
  match g with
  | click_export => export_button
  | toggle f _ => checkbox_of f
  | choose m _ => select_of m
  | type_in l _ => number_of l
  | commit l => number_of l
  end.

(** An event reaches a control only if the control is on the page; a
    select offers only its options. *)
Definition dispatch (g : gesture) (p : page) : page * list effect :=
  match locate (target g) (render (config p) (RAGConfig p)) with
  | None => (p, [])
  | Some n =>
      match g with
      | click_export => fire (attrs_of n) Click nothing p
      | toggle _ b => fire (attrs_of n) Change (checked b) p
      | choose _ i =>
          match nth_error (option_values n) i with
          | Some v => fire (attrs_of n) Change (selected v) p
          | None => (p, [])
          end
      | type_in _ v => fire (attrs_of n) Input (typed v) p
      | commit _ => fire (attrs_of n) Change nothing p
      end
  end.

Fixpoint interact (gs : list gesture) (p : page) : page * list effect :=
  match gs with
  | [] => (p, [])
  | g :: rest =>
      let (p1, l1) := dispatch g p in
      let (p2, l2) := interact rest p1 in
      (p2, l1 ++ l2)
  end.

(** *** Vocabulary of the properties *)

(** [$config?.features?.enable_admin_export] *)
Definition export_flag (cfg : nullable config_t) : nullable bool :=
  optional (optional cfg features) enable_admin_export.

(** The options that the advanced-retrieval switch reveals. *)
Definition sub_options : list control :=
  [checkbox_of EnableQueryExpansion;
   checkbox_of EnableDocumentReranking;
   checkbox_of EnableSemanticChunking;
   select_of ChatUpload;
   select_of KnowledgeBase].

(** [RAGConfig.USE_ADVANCED_RETRIEVAL] is [true]. *)
Definition advanced_on (rc : nullable rag_config) : bool :=
  match rc with
  | Val r => USE_ADVANCED_RETRIEVAL r
  | _ => false
  end.

(** Buttons, inputs and selects. *)
Definition interactive (n : node) : bool :=
  (tag_of n =? "button") || (tag_of n =? "input") || (tag_of n =? "select").

Definition valid_mode (v : string) : bool :=
  (v =? "full_context") || (v =? "chunked_vectorized") || (v =? "hybrid").

Definition modes_valid (rc : nullable rag_config) : bool :=
  match rc with
  | Val r => valid_mode (CHAT_UPLOAD_PROCESSING_MODE r)
             && valid_mode (KNOWLEDGE_BASE_PROCESSING_MODE r)
  | _ => true
  end.


Definition is_update (e : effect) : bool :=
  match e with
  | called_updateHandler _ => true
  | _ => false
  end.







End Component.

Arguments rag_config number : clear implicits.
Arguments attr number : clear implicits.
Arguments node number : clear implicits.
Arguments page number E : clear implicits.
Arguments effect number : clear implicits.
Arguments payload number : clear implicits.
Arguments gesture number : clear implicits.

End General.

(** ** A small machine to run the scripts on *)

Module Sim.
Import Shell.

Record machine := {
  tools : list string;          (* the programs on the PATH *)
  env_file : bool;              (* [.env.bedrock] is there *)
  daemon : bool;                (* the Docker daemon answers *)
  images : list string;         (* repositories of the local images *)
  containers : list string;     (* names of the running containers *)
  http : option string          (* status served on port 3000, if any *)
}.

Fixpoint starts_with (pre argv : list string) : bool :=
  match pre, argv with
  | [], _ => true
  | _ :: _, [] => false
  | a :: pre', b :: argv' => (a =? b) && starts_with pre' argv'
  end.

Definition ok (ls : list string) : result :=
  {| status := 0; output := map (fun l => (Stdout, l)) ls |}.

Definition failed (n : nat) (msg : string) : result :=
  {| status := n; output := [(Stderr, msg)] |}.

Definition no_daemon : result :=
  failed 1 "Cannot connect to the Docker daemon".

Definition with_containers (cs : list string) (m : machine) : machine :=
  {| tools := tools m; env_file := env_file m; daemon := daemon m;
     images := images m; containers := cs; http := http m |}.

Definition has (x : string) (l : list string) : bool :=
  existsb (String.eqb x) l.

(** [docker exec container tool ...] *)
Definition docker_exec (args : list string) (m : machine) : result :=
  if negb (has (nth 1 args "") (containers m)) then
    failed 1 "No such container"
  else
    let tool := nth 2 args "" in
    if tool =? "env" then
      ok ["WEBUI_SECRET_KEY=secret"; "OPENAI_API_KEY=bedrock"; "HOME=/root"]
    else if tool =? "ls" then ok ["total 1"; "webui.db"]
    else if tool =? "ping" then ok ["1 packets transmitted, 1 received"]
    else failed 126 "not executable".

Definition docker (args : list string) (m : machine) : machine * result :=
  if negb (daemon m) then (m, no_daemon)
  else if starts_with ["info"] args then (m, ok ["Server Version: 27"])
  else if starts_with ["images"] args then
    (m, ok ("REPOSITORY   TAG   IMAGE ID"
              :: map (fun i => String.append i "   latest") (images m)))
  else if starts_with ["ps"] args then
    (m, ok ("NAMES   STATUS   PORTS"
              :: map (fun c => String.append c "   Up") (containers m)))
  else if starts_with ["logs"] args then
    (m, if has (nth 1 args "") (containers m)
        then {| status := 0;
                output := [(Stdout, "INFO: started");
                           (Stderr, "ERROR: upstream failed with 500")] |}
        else failed 1 "No such container")
  else if starts_with ["exec"] args then (m, docker_exec args m)
  else (m, failed 125 "unknown command").

Definition compose (args : list string) (m : machine) : machine * result :=
  if negb (daemon m) then (m, no_daemon)
  else if has "down" args then (with_containers [] m, ok [])
  else if has "up" args then
    if has "bedrock-gateway" (images m) && has "open-webui" (images m)
    then (with_containers ["bedrock-gateway"; "open-webui"] m, ok [])
    else (m, failed 1 "pull access denied")
  else (m, failed 1 "unknown command").

(** [curl -s -o /dev/null -w "%{http_code}"]: the status served, or
    [000] and exit status 7 when the connection is refused. *)
Definition curl (m : machine) : result :=
  match http m with
  | Some code => ok [code]
  | None => {| status := 7; output := [(Stdout, "000")] |}
  end.

Definition exec (argv : list string) (m : machine) : machine * result :=
  match argv with
  | [] => (m, failed 127 "command not found")
  | prog :: args =>
      if negb (has prog (tools m)) then (m, failed 127 "command not found")
      else if prog =? "docker" then docker args m
      else if prog =? "docker-compose" then compose args m
      else if prog =? "curl" then (m, curl m)
      else if prog =? "sleep" then (m, ok [])
      else (m, failed 126 "not executable")
  end.

#[export] Instance machine_host : Host machine := {
  run := exec;
  is_file path m := (path =? ".env.bedrock") && env_file m
}.

Definition all_tools : list string :=
  ["docker"; "docker-compose"; "curl"; "sleep"].

(** A machine ready for [run-bedrock.sh], nothing running yet. *)
Definition ready : machine :=
  {| tools := all_tools; env_file := true; daemon := true;
     images := ["bedrock-gateway"; "open-webui"];
     containers := []; http := None |}.

(** The same machine with the stack up and the UI answering. *)
Definition serving (code : string) : machine :=
  {| tools := all_tools; env_file := true; daemon := true;
     images := ["bedrock-gateway"; "open-webui"];
     containers := ["bedrock-gateway"; "open-webui"]; http := Some code |}.

(** Machines on which one prerequisite of [run-bedrock.sh] is missing,
    and one without [curl]. *)
Definition without_env_file : machine :=
  {| tools := all_tools; env_file := false; daemon := true;
     images := ["bedrock-gateway"; "open-webui"];
     containers := []; http := None |}.

Definition without_daemon : machine :=
  {| tools := all_tools; env_file := true; daemon := false;
     images := ["bedrock-gateway"; "open-webui"];
     containers := []; http := None |}.

Definition with_images (l : list string) : machine :=
  {| tools := all_tools; env_file := true; daemon := true;
     images := l; containers := []; http := None |}.

Definition without_curl : machine :=
  {| tools := ["docker"; "docker-compose"; "sleep"];
     env_file := true; daemon := true;
     images := ["bedrock-gateway"; "open-webui"];
     containers := ["bedrock-gateway"; "open-webui"]; http := Some "200" |}.

End Sim.

(** ** A page to click on *)

Module Demo.
Import General.

(** The parent keeps the configurations it was asked to save. *)
Definition saved := list (nullable (rag_config nat)).

Definition save : nullable (rag_config nat) -> saved -> saved :=
  fun seen log => log ++ [seen].

Definition stored : rag_config nat :=
  {| USE_ADVANCED_RETRIEVAL := true;
     ENABLE_QUERY_EXPANSION := false;
     ENABLE_DOCUMENT_RERANKING := true;
     ENABLE_SEMANTIC_CHUNKING := false;
     CHAT_UPLOAD_PROCESSING_MODE := "full_context";
     KNOWLEDGE_BASE_PROCESSING_MODE := "hybrid";
     FILE_MAX_SIZE := Val 10;
     FILE_MAX_COUNT := Null |}.

Definition opened : page nat saved :=
  mount Undefined [] (Some save) (Val stored).

Definition english : string -> string := fun key => key.

End Demo.

(** ** The parts of the scripts, by name *)

Module Parts.
Import Shell Text Debug.
Local Open Scope sh_scope.

Section Script.
Context {W : Type} `{Host W}.

(** Line 8: is the container listed? *)
Definition container_listed : sh W nat :=
  listing <- source Show docker_ps ;; ret (grep_q "open-webui" listing).

(** Line 19. *)
Definition env_report : sh W nat :=
  vars <- source Show docker_exec_env ;;
  sink (sort (grep_E ["OLLAMA"; "OPENAI"; "WEBUI"; "DATABASE"] vars)).

(** Line 24. *)
Definition log_report : sh W nat :=
  logs <- source Pipe docker_logs ;;
  sink (tail 20 (grep_iE ["error"; "exception"; "failed"; "500"] logs)).

(** Line 29. *)
Definition data_probe : sh W nat :=
  or_else (command Show Drop docker_exec_ls)
          (echo "Cannot access data directory").

(** Lines 34-35. *)
Definition host_probe : sh W nat :=
  echo_n "Container can reach host: " ;;
  or_else (and_then (command Drop Drop docker_exec_ping) (echo "✅ Yes"))
          (echo "❌ No").

(** Lines 3-5 and 56-62: what the script prints first and last. *)
Definition banner : list tline :=
  [Line Stdout "🔍 Open WebUI Debug Script";
   Line Stdout "=========================";
   Line Stdout ""].

Definition common_fixes : list tline :=
  [Line Stdout "";
   Line Stdout "💡 Common fixes for 500 error:";
   Line Stdout "1. Clear browser cache and cookies";
   Line Stdout "2. Try incognito mode";
   Line Stdout "3. Access http://localhost:3000/ollama first";
   Line Stdout "4. Remove and recreate the volume";
   Line Stdout "5. Check if Bedrock Gateway is running on port 8000"].

(** Lines 42-53, as printed. *)
Definition advice : list tline :=
  [Line Stdout "❌ Container is not running!";
   Line Stdout "";
   Line Stdout "🚀 To start the container, run:";
   Line Stdout "docker run -d -p 3000:8080 \";
   Line Stdout "  -e ENABLE_OLLAMA_API=false \";
   Line Stdout "  -e ENABLE_OPENAI_API=true \";
   Line Stdout "  -e OPENAI_API_BASE_URL=http://host.docker.internal:8000/api/v1 \";
   Line Stdout "  -e OPENAI_API_KEY=bedrock \";
   Line Stdout "  -v open-webui:/app/backend/data \";
   Line Stdout "  --name open-webui \";
   Line Stdout "  --restart always \";
   Line Stdout "  open-webui"].

End Script.
End Parts.

(** ** What run-bedrock.sh reports at the end *)

Module Reports.
Import Shell.

(** Lines 127-138. *)
Definition success_report : list tline :=
  [Line Stdout "";
   Line Stdout "Services started successfully!";
   Line Stdout "";
   Line Stdout "Open WebUI: http://localhost:3000";
   Line Stdout "Bedrock Gateway API: http://localhost:8000/docs";
   Line Stdout "";
   Line Stdout "First time setup:";
   Line Stdout "1. Create an account at http://localhost:3000";
   Line Stdout "2. AWS Bedrock models should appear automatically";
   Line Stdout "";
   Line Stdout "To stop: docker-compose -f docker-compose.bedrock.yaml down";
   Line Stdout "View logs: docker-compose -f docker-compose.bedrock.yaml logs -f"].

(** Lines 140-142. *)
Definition failure_report : list tline :=
  [Line Stdout "";
   Line Stdout "Error: Services failed to start!";
   Line Stdout "Check logs with: docker-compose -f docker-compose.bedrock.yaml logs"].

End Reports.

(** ** More vocabulary for the settings panel *)

Module Pages.
Import General.

Section Component.
Context {number : Type} {E : Type}.

(** The page after [updateHandler] has run on it. *)
Definition notified (p : page number E) : page number E :=
  {| config := config p;
     updateHandler := updateHandler p;
     RAGConfig := RAGConfig p;
     parent := updateHandler p (RAGConfig p) (parent p) |}.

(** [RAGConfig] is an object, the truthy case of [{#if RAGConfig}]. *)
Definition is_object (rc : nullable (rag_config number)) : bool :=
  match rc with
  | Val _ => true
  | _ => false
  end.

(** The gestures that are [change] events. *)
Definition is_change (g : gesture number) : bool :=
  match g with
  | toggle _ _ | choose _ _ | commit _ => true
  | _ => false
  end.

Definition is_toast (e : effect number) : bool :=
  match e with
  | toast_info _ => true
  | _ => false
  end.

End Component.
End Pages.

(** * Properties *)

(** ** The shell monad and the classification of commands *)

Module ShellFacts.
Import Shell Docker.

Lemma piped_stdout (r : result) : piped Pipe Show r = lines_of Stdout r.
Proof.
  unfold piped, lines_of. induction (output r) as [|[[] l] rest IH]; cbn.
  - reflexivity.
  - now rewrite IH.
  - exact IH.
Qed.

Section Replay.
Context {W : Type} `{Host W}.

(** Read-only programs, in any number and order, leave every
    preserved view of the machine as it was. *)
Lemma replay_read_only {S : Type} (view : W -> S) :
  preserved_by_reads view ->
  forall l w, forallb read_only l = true -> view (replay l w) = view w.
Proof.
  intros Hview l. induction l as [|argv l IH]; intros w Hl.
  - reflexivity.
  - cbn in Hl. apply andb_prop in Hl as [Ha Hl].
    change (replay (argv :: l) w) with (replay l (fst (run argv w))).
    rewrite (IH _ Hl). now apply Hview.
Qed.

End Replay.

(** *** Reasoning about a script one command at a time *)

Section Wp.
Context {W : Type} `{Host W}.

Lemma wp_ret {A} (a : A) Q (s : session W) :
  Q s (Ret a) -> wp (ret a) Q s.
Proof. exact (fun q => q). Qed.

Lemma wp_exit {A} (n : nat) (Q : session W -> answer A -> Prop) s :
  Q s (Exit n) -> wp (exit n) Q s.
Proof. exact (fun q => q). Qed.

Lemma wp_bind {A B} (c : sh W A) (k : A -> sh W B) Q (s : session W) :
  wp c (fun s' a => match a with
                    | Ret x => wp (k x) Q s'
                    | Exit n => Q s' (Exit n)
                    end) s ->
  wp (bind c k) Q s.
Proof.
  unfold wp, bind. destruct (c s) as [s' [x|n]]; cbn; auto.
Qed.

Lemma wp_print (ls : list tline) Q (s : session W) :
  Q {| host := host s; terminal := terminal s ++ ls; trace := trace s |}
    (Ret tt) ->
  wp (print ls) Q s.
Proof. exact (fun q => q). Qed.

Lemma wp_spawn (argv : list string) Q (s : session W) :
  (forall w r, run argv (host s) = (w, r) ->
               Q {| host := w; terminal := terminal s;
                    trace := trace s ++ [argv] |} (Ret r)) ->
  wp (spawn argv) Q s.
Proof.
  unfold wp, spawn. intros HQ.
  destruct (run argv (host s)) as [w r] eqn:E. now apply HQ.
Qed.

Lemma wp_test_f (path : string) Q (s : session W) :
  Q s (Ret (if is_file path (host s) then 0 else 1)) ->
  wp (test_f path) Q s.
Proof. exact (fun q => q). Qed.

Lemma wp_run_script (p : sh W nat) (w : W)
      (Q : session W -> nat -> Prop) :
  wp p (fun s a => Q s (exit_status a)) (start w) ->
  Q (fst (run_script p w)) (snd (run_script p w)).
Proof.
  unfold wp, run_script. now destruct (p (start w)).
Qed.

End Wp.

Ltac unfold_commands :=
  unfold if_then;
  unfold echo, echo_n, command, source, sink, and_then, or_else, negate,
    if_then_else, true_.

Ltac split_test :=
  match goal with
  | |- context [Nat.eqb (status ?r) 0] =>
      destruct (Nat.eqb (status r) 0) eqn:?
  | |- context [Text.grep_q _ _] => unfold Text.grep_q
  | |- context [if existsb (Text.contains ?p) ?l then _ else _] =>
      destruct (existsb (Text.contains p) l) eqn:?
  | |- context [is_file ?p ?w] =>
      destruct (is_file p w) eqn:?
  end.

Ltac wp_step :=
  cbv beta iota; cbn [host terminal trace Nat.eqb];
  lazymatch goal with
  | |- wp (bind _ _) _ _ => apply wp_bind
  | |- wp (print _) _ _ => apply wp_print
  | |- wp (ret _) _ _ => apply wp_ret
  | |- wp (exit _) _ _ => apply wp_exit
  | |- wp (test_f _) _ _ => apply wp_test_f
  | |- wp (spawn _) _ _ =>
      let w := fresh "w" in
      let r := fresh "r" in
      let E := fresh "E" in
      apply wp_spawn; cbn [host]; intros w r E
  | |- wp (if _ then _ else _) _ _ => split_test
  | |- wp (match _ with _ => _ end) _ _ => split_test
  end.

Ltac wp_run :=
  unfold_commands; repeat wp_step;
  cbv beta iota; cbn [host terminal trace exit_status].

(** The machine at the end is the one the recorded programs lead to. *)
Ltac replayed :=
  cbv [Docker.replay fold_left]; cbn [app];
  repeat match goal with
         | E : run ?argv ?m = _ |- context [run ?argv ?m] =>
             rewrite E; cbn [fst]
         end;
  reflexivity.

End ShellFacts.

(** ** Properties of debug-openwebui.sh *)

Module DebugSpec.
Import Shell Text Docker Debug ShellFacts.

Section Facts.
Context {W : Type} `{Host W}.

(** C8.  The port check prints [Returns 500] exactly when a line of
    what [curl] wrote to standard output contains [500], and [OK] in
    every other case, whatever the exit status of [curl]; so when
    nothing answers on the port (no output, or [000]) the check still
    prints [OK]. *)
Theorem port_check_verdict (s : session W) :
  let r := snd (run curl_status (host s)) in
  let code := lines_of Stdout r in
  let verdict := if existsb (contains "500") code
                 then "❌ Returns 500" else "✅ OK" in
  snd (port_check s) = Ret 0
  /\ terminal (fst (port_check s))
     = terminal s ++ [Partial "Port 3000 is accessible: "]
         ++ shown Pipe Show r ++ [Line Stdout verdict]
  /\ (code = [] -> verdict = "✅ OK")
  /\ (code = ["000"] -> verdict = "✅ OK").
Proof.
  cbv zeta. rewrite <- piped_stdout.
  split; [|split].
  - change (wp port_check (fun _ a => a = Ret 0) s).
    unfold port_check. wp_run; reflexivity.
  - change (wp port_check
               (fun s' _ =>
                  terminal s'
                  = terminal s ++ [Partial "Port 3000 is accessible: "]
                      ++ shown Pipe Show (snd (run curl_status (host s)))
                      ++ [Line Stdout
                            (if existsb (contains "500")
                                  (piped Pipe Show
                                     (snd (run curl_status (host s))))
                             then "❌ Returns 500" else "✅ OK")]) s).
    unfold port_check. wp_run;
      match goal with E : run _ _ = _ |- _ => rewrite E; cbn [snd] end;
      match goal with E : existsb _ _ = _ |- _ => rewrite E end;
      now rewrite <- !app_assoc.
  - destruct (existsb (contains "500")
                (piped Pipe Show (snd (run curl_status (host s)))))
      eqn:Hgrep; split; intros Hcode; rewrite Hcode in Hgrep;
      try reflexivity; discriminate Hgrep.
Qed.

(** C7.  Whatever the machine, the script starts only reporting
    programs: [docker ps] alone when the container is not listed (the
    [docker run] line is printed, never executed), and otherwise the
    seven inspections of the container's state, environment, logs,
    data directory and connectivity.  Every view of the machine that
    reporting programs preserve is therefore the same after the
    script as before it. *)
Theorem debug_only_inspects (w : W) :
  let s := fst (run_script debug_openwebui w) in
  (trace s = [docker_ps]
   \/ trace s = [docker_ps; docker_ps_details; docker_exec_env;
                 docker_logs; docker_exec_ls; docker_exec_ping;
                 curl_status])
  /\ forallb read_only (trace s) = true
  /\ host s = replay (trace s) w
  /\ (forall (S : Type) (view : W -> S),
         preserved_by_reads view -> view (host s) = view w).
Proof.
  cbv zeta.
  pose (Q := fun (s : session W) (_ : nat) =>
               (trace s = [docker_ps]
                \/ trace s = [docker_ps; docker_ps_details;
                              docker_exec_env; docker_logs;
                              docker_exec_ls; docker_exec_ping;
                              curl_status])
               /\ host s = replay (trace s) w).
  assert (Hrun : Q (fst (run_script debug_openwebui w))
                   (snd (run_script debug_openwebui w))).
  { apply wp_run_script.
    unfold debug_openwebui, diagnose, advise, port_check, start, Q.
    wp_run; cbn [app]; (split; [auto | replayed]). }
  destruct Hrun as [Htrace Hhost].
  assert (Hro : forallb read_only
                  (trace (fst (run_script debug_openwebui w))) = true)
    by (destruct Htrace as [-> | ->]; reflexivity).
  repeat split; auto.
  intros S view Hview. rewrite Hhost. now apply replay_read_only.
Qed.

End Facts.
End DebugSpec.

(** ** Properties of run-bedrock.sh *)

Module RunBedrockSpec.
Import Shell Text Docker RunBedrock ShellFacts.

(** Use what is known about a test instead of splitting on it. *)
Ltac known_test :=
  match goal with
  | E0 : run ?a ?m = _, E : run ?a ?m = _ |- _ =>
      rewrite E0 in E; injection E as <- <-
  | T : is_file ?p ?w = _ |- context [is_file ?p ?w] => rewrite T
  | T : Nat.eqb (status ?r) 0 = _ |- context [Nat.eqb (status ?r) 0] =>
      rewrite T
  | T : existsb (contains ?p) ?l = _
    |- context [existsb (contains ?p) ?l] => rewrite T
  | |- context [grep_q _ _] => unfold grep_q
  end.

Ltac wp_known :=
  unfold_commands;
  repeat (repeat known_test; wp_step);
  cbv beta iota; cbn [host terminal trace exit_status app].

Section Facts.
Context {W : Type} `{Host W}.

(** C2.  The four prerequisites are checked in the order env file,
    Docker daemon, gateway image, UI image.  At the first one that is
    missing the script prints that check's error message and exits
    with status 1; the programs it has started by then are the
    earlier checks only, so [docker-compose] is never reached.  An
    image counts as present when a line of the [docker images]
    listing mentions its name, which is what the script tests. *)
Theorem prerequisites_checked (w : W) :
  let out := run_script run_bedrock w in
  let info := run docker_info w in
  let gateway := run docker_images (fst info) in
  let webui := run docker_images (fst gateway) in
  let listed name r := existsb (contains name) (lines_of Stdout r) in
  (is_file ".env.bedrock" w = false ->
     snd out = 1
     /\ trace (fst out) = []
     /\ In (Line Stdout "Error: .env.bedrock file not found!")
           (terminal (fst out)))
  /\ (is_file ".env.bedrock" w = true ->
      status (snd info) <> 0 ->
        snd out = 1
        /\ trace (fst out) = [docker_info]
        /\ In (Line Stdout "Error: Docker is not running!")
              (terminal (fst out)))
  /\ (is_file ".env.bedrock" w = true ->
      status (snd info) = 0 ->
      listed "bedrock-gateway" (snd gateway) = false ->
        snd out = 1
        /\ trace (fst out) = [docker_info; docker_images]
        /\ In (Line Stdout "Error: bedrock-gateway image not found!")
              (terminal (fst out)))
  /\ (is_file ".env.bedrock" w = true ->
      status (snd info) = 0 ->
      listed "bedrock-gateway" (snd gateway) = true ->
      listed "open-webui" (snd webui) = false ->
        snd out = 1
        /\ trace (fst out) = [docker_info; docker_images; docker_images]
        /\ In (Line Stdout "Error: open-webui image not found!")
              (terminal (fst out))).
Proof.
  cbv zeta.
  destruct (run docker_info w) as [w1 r1] eqn:E1; cbn [fst snd].
  destruct (run docker_images w1) as [w2 r2] eqn:E2; cbn [fst snd].
  destruct (run docker_images w2) as [w3 r3] eqn:E3; cbn [fst snd].
  rewrite <- !piped_stdout.
  repeat split.
  all: match goal with
       | |- snd ?o = 1 =>
           apply (wp_run_script run_bedrock w (fun _ n => n = 1))
       | |- trace (fst ?o) = ?l =>
           apply (wp_run_script run_bedrock w (fun s _ => trace s = l))
       | |- In ?x (terminal (fst ?o)) =>
           apply (wp_run_script run_bedrock w
                    (fun s _ => In x (terminal s)))
       end.
  all: unfold run_bedrock, check_env_file, check_docker,
         check_gateway_image, check_webui_image, start.
  all: repeat match goal with
              | T : status _ <> 0 |- _ => apply Nat.eqb_neq in T
              | T : status _ = 0 |- _ => apply Nat.eqb_eq in T
              end.
  all: wp_known; try reflexivity.
  all: cbn [In]; repeat rewrite in_app_iff; cbn [In]; intuition.
Qed.

(** C6.  When the four checks pass, the programs the script starts
    are the checks, [docker-compose ... down], [docker-compose
    --env-file .env.bedrock -f docker-compose.bedrock.yaml up -d],
    [sleep 5] and one or two [docker ps].  The two [docker-compose]
    calls, in that order, are the only ones that are not read-only:
    no [docker run], [docker create] or other configuring command is
    issued by the script itself. *)
Theorem started_through_compose (w : W) :
  let out := run_script run_bedrock w in
  let info := run docker_info w in
  let gateway := run docker_images (fst info) in
  let webui := run docker_images (fst gateway) in
  let listed name r := existsb (contains name) (lines_of Stdout r) in
  let checks := [docker_info; docker_images; docker_images] in
  is_file ".env.bedrock" w = true ->
  status (snd info) = 0 ->
  listed "bedrock-gateway" (snd gateway) = true ->
  listed "open-webui" (snd webui) = true ->
  (trace (fst out)
   = checks ++ [compose_down; compose_up; sleep_5; docker_ps]
   \/ trace (fst out)
      = checks ++ [compose_down; compose_up; sleep_5; docker_ps;
                   docker_ps])
  /\ filter (fun argv => negb (read_only argv)) (trace (fst out))
     = [compose_down; compose_up]
  /\ host (fst out) = replay (trace (fst out)) w.
Proof.
  cbv zeta.
  destruct (run docker_info w) as [w1 r1] eqn:E1; cbn [fst snd].
  destruct (run docker_images w1) as [w2 r2] eqn:E2; cbn [fst snd].
  destruct (run docker_images w2) as [w3 r3] eqn:E3; cbn [fst snd].
  rewrite <- !piped_stdout. intros Hfile Hinfo Hgateway Hwebui.
  apply Nat.eqb_eq in Hinfo.
  pose (Q := fun (s : session W) (_ : nat) =>
               (trace s = [docker_info; docker_images; docker_images;
                           compose_down; compose_up; sleep_5; docker_ps]
                \/ trace s = [docker_info; docker_images; docker_images;
                              compose_down; compose_up; sleep_5;
                              docker_ps; docker_ps])
               /\ host s = replay (trace s) w).
  assert (Hrun : Q (fst (run_script run_bedrock w))
                   (snd (run_script run_bedrock w))).
  { apply wp_run_script.
    unfold run_bedrock, check_env_file, check_docker,
      check_gateway_image, check_webui_image, restart_stack,
      await_services, start, Q.
    wp_known; (split; [auto | replayed]). }
  destruct Hrun as [Htrace Hhost]. cbn [app].
  repeat split; auto.
  destruct Htrace as [-> | ->]; reflexivity.
Qed.

End Facts.
End RunBedrockSpec.

(** ** Properties of General.svelte *)

Module GeneralSpec.
Import General.

Section Facts.
Context {number : Type} {E : Type} (t : string -> string).

(** Split a page into the cases the template distinguishes: the
    value of the export guard, whether [RAGConfig] is an object, and
    the advanced-retrieval switch. *)
Ltac page_cases p :=
  let cfg := fresh "cfg" in
  let uh := fresh "uh" in
  let rc := fresh "rc" in
  let e := fresh "e" in
  destruct p as [cfg uh rc e];
  unfold dispatch, rendered, render; cbn [config RAGConfig];
  destruct (coalesce (optional (optional cfg features) enable_admin_export)
                     true);
  destruct rc as [| |[[] ? ? ? ? ? ? ?]].

Lemma export_guard (cfg : nullable config_t) :
  coalesce (optional (optional cfg features) enable_admin_export) true
  = match export_flag cfg with
    | Val false => false
    | _ => true
    end.
Proof.
  unfold export_flag.
  destruct cfg as [| |[[| |[[| |[]]]]]]; reflexivity.
Qed.

Lemma rendered_export cfg (rc : nullable (rag_config number)) :
  rendered export_button (render t cfg rc)
  = coalesce (optional (optional cfg features) enable_admin_export) true.
Proof.
  unfold rendered, render.
  destruct (coalesce _ _); destruct rc as [| |[[] ? ? ? ? ? ? ?]];
    reflexivity.
Qed.

(** C1.  The click handler of the export button leaves the page as it
    is and shows one informational toast; so does a click on the
    button whenever the button is on the page.  No API call, no
    download, no write to [RAGConfig] and no call of [updateHandler]
    is among its effects. *)
Theorem export_click_is_a_stub (p : page number E) :
  let notice := toast_info (t "Export functionality not yet implemented") in
  run_handler t ExportClick p = (p, [notice])
  /\ dispatch t click_export p
     = (p, if rendered export_button (render t (config p) (RAGConfig p))
           then [notice] else [])
  /\ RAGConfig (fst (dispatch t click_export p)) = RAGConfig p
  /\ forallb (fun e => match e with
                       | toast_info _ => true
                       | _ => false
                       end) (snd (dispatch t click_export p)) = true.
Proof.
  cbv zeta. split; [reflexivity|].
  assert (Hclick :
    dispatch t click_export p
    = (p, if rendered export_button (render t (config p) (RAGConfig p))
          then [toast_info (t "Export functionality not yet implemented")]
          else [])).
  { page_cases p; reflexivity. }
  rewrite Hclick. cbn [fst snd]. repeat split.
  destruct (rendered _ _); reflexivity.
Qed.


Ltac gesture_cases g :=
  destruct g as [|[] ?|[] [|[|[|[|?]]]]|[] ?|[]].

Ltac crunch p g := page_cases p; gesture_cases g; try reflexivity.

(** *** One event *)

Lemma dispatch_keeps_props (g : gesture number) (p : page number E) :
  config (fst (dispatch t g p)) = config p
  /\ updateHandler (fst (dispatch t g p)) = updateHandler p.
Proof. crunch p g; split; reflexivity. Qed.

Lemma dispatch_keeps_object (g : gesture number) (p : page number E) :
  (exists r, RAGConfig p = Val r) ->
  exists r', RAGConfig (fst (dispatch t g p)) = Val r'.
Proof.
  intros [r Hr]. revert Hr.
  crunch p g; cbn; intros Hr; try discriminate Hr; eauto.
Qed.






Lemma dispatch_modes_valid (g : gesture number) (p : page number E) :
  modes_valid (RAGConfig p) = true ->
  modes_valid (RAGConfig (fst (dispatch t g p))) = true.
Proof.
  crunch p g; cbn; try (intros; assumption);
    intros Hm; apply andb_prop in Hm as [Hchat Hkb];
    rewrite ?Hchat, ?Hkb; reflexivity.
Qed.



Lemma toggle_effects (f : flag) (b : bool) (p : page number E) :
  snd (dispatch t (toggle f b) p)
  = if rendered (checkbox_of f) (render t (config p) (RAGConfig p))
    then [wrote_flag f b;
          called_updateHandler (RAGConfig (fst (dispatch t (toggle f b) p)))]
    else [].
Proof. page_cases p; destruct f; reflexivity. Qed.

Lemma choose_effects (m : mode) (i : nat) (p : page number E) :
  snd (dispatch t (choose m i) p)
  = match nth_error ["full_context"; "chunked_vectorized"; "hybrid"] i with
    | Some v =>
        if rendered (select_of m) (render t (config p) (RAGConfig p))
        then [wrote_mode m v;
              called_updateHandler
                (RAGConfig (fst (dispatch t (choose m i) p)))]
        else []
    | None => []
    end.
Proof.
  page_cases p; destruct m; destruct i as [|[|[|[|?]]]]; reflexivity.
Qed.

(** *** Sequences of events *)

Lemma interact_cons (g : gesture number) gs (p : page number E) :
  interact t (g :: gs) p
  = (fst (interact t gs (fst (dispatch t g p))),
     snd (dispatch t g p) ++ snd (interact t gs (fst (dispatch t g p)))).
Proof.
  cbn [interact]. destruct (dispatch t g p) as [p1 l1]. cbn [fst snd].
  now destruct (interact t gs p1).
Qed.






Lemma interact_modes_valid gs (p : page number E) :
  modes_valid (RAGConfig p) = true ->
  modes_valid (RAGConfig (fst (interact t gs p))) = true.
Proof.
  revert p. induction gs as [|g gs IH]; intros p Hp; [exact Hp|].
  rewrite interact_cons. cbn [fst]. apply IH.
  now apply dispatch_modes_valid.
Qed.

(** C4.  Choosing the [i]-th option of a processing-mode select
    writes that option's value, one of [full_context],
    [chunked_vectorized] and [hybrid], to the select's own field and
    nothing else; so if both modes are among the three before a
    sequence of events on the form, they are after it. *)
Theorem select_writes_an_enumerated_mode
        (m : mode) (i : nat) (p : page number E) :
  snd (dispatch t (choose m i) p)
  = match nth_error ["full_context"; "chunked_vectorized"; "hybrid"] i with
    | Some v =>
        if rendered (select_of m) (render t (config p) (RAGConfig p))
        then [wrote_mode m v;
              called_updateHandler
                (RAGConfig (fst (dispatch t (choose m i) p)))]
        else []
    | None => []
    end
  /\ (forall k v,
        In (wrote_mode k v) (snd (dispatch t (choose m i) p)) ->
        k = m /\ (v = "full_context" \/ v = "chunked_vectorized"
                  \/ v = "hybrid"))
  /\ (forall gs,
        modes_valid (RAGConfig p) = true ->
        modes_valid (RAGConfig (fst (interact t gs p))) = true).
Proof.
  split; [apply choose_effects|]. split.
  - intros k v. rewrite choose_effects.
    destruct i as [|[|[|[|?]]]]; cbn [nth_error];
      destruct (rendered (select_of m)
                  (render t (config p) (RAGConfig p))); cbn [In];
      intuition congruence.
  - intros gs. apply interact_modes_valid.
Qed.


(** C3.  Whatever [$config] and [RAGConfig] are, each of the five
    advanced options (the Query Expansion, Document Reranking and
    Semantic Chunking checkboxes and the two processing-mode
    selects) is on the page exactly when
    [RAGConfig.USE_ADVANCED_RETRIEVAL] is [true]. *)
Theorem sub_options_follow_the_switch
        (cfg : nullable config_t) (rc : nullable (rag_config number)) :
  Forall (fun c => rendered c (render t cfg rc) = advanced_on rc)
         sub_options.
Proof.
  unfold sub_options, rendered, render, advanced_on.
  destruct (coalesce (optional (optional cfg features) enable_admin_export)
                     true);
    destruct rc as [| |[[] ? ? ? ? ? ? ?]];
    repeat constructor.
Qed.

(** C9.  The export button, and with it the Export Documents
    Workspace section, is on the page exactly when
    [$config?.features?.enable_admin_export] is not [false]: it is
    shown when the store, its [features] or the flag is [undefined]
    or [null]. *)
Theorem export_shown_unless_disabled
        (cfg : nullable config_t) (rc : nullable (rag_config number)) :
  rendered export_button (render t cfg rc)
  = match export_flag cfg with
    | Val false => false
    | _ => true
    end
  /\ rendered export_button (render t Undefined rc) = true
  /\ rendered export_button (render t Null rc) = true
  /\ rendered export_button
       (render t (Val {| features := Undefined |}) rc) = true
  /\ rendered export_button
       (render t (Val {| features := Null |}) rc) = true
  /\ rendered export_button
       (render t (Val {| features :=
                           Val {| enable_admin_export := Undefined |} |})
               rc) = true
  /\ rendered export_button
       (render t (Val {| features :=
                           Val {| enable_admin_export := Null |} |})
               rc) = true.
Proof.
  rewrite !rendered_export. repeat split; try reflexivity.
  apply export_guard.
Qed.

(** C10.  Mounted without props, the component has an [updateHandler]
    that does nothing and a [RAGConfig] that is [null]; with a
    [null] [RAGConfig] the page is the heading and, at most, the
    export section: no control other than the export button is
    rendered. *)
Theorem defaults_render_no_settings (cfg : nullable config_t) (e : E) :
  let p : page number E := mount cfg e None Undefined in
  let tree := render t cfg (RAGConfig p) in
  (forall seen x, updateHandler p seen x = x)
  /\ RAGConfig p = Null
  /\ tree
     = [el "div" [class "mb-2 text-sm font-medium"]
          [text (t "General Settings")];
        el "div" [class "flex flex-col space-y-3"]
          (if rendered export_button tree then [export_section t] else [])]
  /\ (forall c, rendered c tree
                = match c with
                  | export_button => rendered export_button tree
                  | _ => false
                  end)
  /\ filter interactive (flat_map elements tree)
     = (if rendered export_button tree
        then filter interactive (elements (export_section t)) else [])
  /\ render t cfg Undefined = tree.
Proof.
  cbv zeta. cbn [mount updateHandler RAGConfig default_RAGConfig].
  rewrite rendered_export. unfold render, rendered.
  destruct (coalesce (optional (optional cfg features) enable_admin_export)
                     true);
    repeat split; try reflexivity.
  all: intros [|[]|[]|[]]; reflexivity.
Qed.

End Facts.
End GeneralSpec.

(** ** The scripts on the small machine *)

Module SimFacts.
Import Shell Text Docker Sim.

Lemma docker_keeps_machine (args : list string) (m : machine) :
  fst (docker args m) = m.
Proof.
  unfold docker.
  repeat match goal with
         | |- context [if ?b then _ else _] => destruct b
         end; reflexivity.
Qed.

(** On this machine the programs classified as read-only change
    nothing at all. *)
Lemma reads_keep_machine : preserved_by_reads (fun m : machine => m).
Proof.
  intros [|prog args] m Hro; [discriminate Hro|].
  cbn [run machine_host exec].
  destruct (negb (has prog (tools m))); [reflexivity|].
  destruct (prog =? "docker") eqn:Hdocker; [apply docker_keeps_machine|].
  destruct (prog =? "docker-compose") eqn:Hcompose.
  - apply String.eqb_eq in Hcompose. subst prog. discriminate Hro.
  - destruct (prog =? "curl"); [reflexivity|].
    destruct (prog =? "sleep"); reflexivity.
Qed.

(** A UI that answers 500 is reported; a port nobody listens on is not. *)
Example port_check_on_500 :
  terminal (fst (Debug.port_check (start (serving "500"))))
  = [Partial "Port 3000 is accessible: "; Line Stdout "❌ Returns 500"].
Proof. reflexivity. Qed.

Example port_check_on_refused :
  terminal (fst (Debug.port_check (start ready)))
  = [Partial "Port 3000 is accessible: "; Line Stdout "✅ OK"].
Proof. reflexivity. Qed.

(** The start-up script on a ready machine brings both containers up. *)
Example run_bedrock_on_ready :
  containers (host (fst (run_script RunBedrock.run_bedrock ready)))
  = ["bedrock-gateway"; "open-webui"]
  /\ snd (run_script RunBedrock.run_bedrock ready) = 0.
Proof. split; reflexivity. Qed.

(** The image checks are textual: a repository whose name merely
    contains [bedrock-gateway] passes the gateway check, and the script
    goes on to [docker-compose]. *)
Example image_check_is_textual :
  trace (fst (run_script RunBedrock.run_bedrock
                (with_images ["bedrock-gateway-dev"; "open-webui"])))
  = [RunBedrock.docker_info; RunBedrock.docker_images;
     RunBedrock.docker_images; RunBedrock.compose_down;
     RunBedrock.compose_up; RunBedrock.sleep_5; RunBedrock.docker_ps]
  /\ snd (run_script RunBedrock.run_bedrock
            (with_images ["bedrock-gateway-dev"; "open-webui"])) = 1.
Proof. split; reflexivity. Qed.

(** The debug script leaves a running stack as it found it. *)
Example debug_on_serving :
  run_script Debug.debug_openwebui (serving "200")
  = ({| host := serving "200";
        terminal := terminal (fst (run_script Debug.debug_openwebui
                                     (serving "200")));
        trace := [Debug.docker_ps; Debug.docker_ps_details;
                  Debug.docker_exec_env; Debug.docker_logs;
                  Debug.docker_exec_ls; Debug.docker_exec_ping;
                  Debug.curl_status] |}, 0).
Proof. reflexivity. Qed.

End SimFacts.

(** ** Instances *)

Module Witnesses.
Import Shell Text Docker Sim.

Lemma port_check_verdict_witness :
  (if existsb (contains "500")
        (lines_of Stdout (snd (run Debug.curl_status (host (start ready)))))
   then "❌ Returns 500" else "✅ OK") = "✅ OK"
  /\ (if existsb (contains "500")
           (lines_of Stdout
              (snd (run Debug.curl_status (host (start without_curl)))))
      then "❌ Returns 500" else "✅ OK") = "✅ OK".
Proof.
  split.
  - apply (proj2 (proj2 (proj2 (DebugSpec.port_check_verdict (start ready))))).
    reflexivity.
  - apply (proj1 (proj2 (proj2 (DebugSpec.port_check_verdict
                                  (start without_curl))))).
    reflexivity.
Defined.

Lemma debug_only_inspects_witness :
  host (fst (run_script Debug.debug_openwebui (serving "200")))
  = serving "200".
Proof.
  apply (proj2 (proj2 (proj2 (DebugSpec.debug_only_inspects (serving "200"))))
           machine (fun m => m)).
  exact SimFacts.reads_keep_machine.
Defined.

Lemma prerequisites_checked_witness :
  (snd (run_script RunBedrock.run_bedrock without_env_file) = 1
   /\ trace (fst (run_script RunBedrock.run_bedrock without_env_file)) = []
   /\ In (Line Stdout "Error: .env.bedrock file not found!")
         (terminal (fst (run_script RunBedrock.run_bedrock
                           without_env_file))))
  /\ (snd (run_script RunBedrock.run_bedrock without_daemon) = 1
      /\ trace (fst (run_script RunBedrock.run_bedrock without_daemon))
         = [RunBedrock.docker_info]
      /\ In (Line Stdout "Error: Docker is not running!")
            (terminal (fst (run_script RunBedrock.run_bedrock
                              without_daemon))))
  /\ (snd (run_script RunBedrock.run_bedrock (with_images ["open-webui"])) = 1
      /\ trace (fst (run_script RunBedrock.run_bedrock
                       (with_images ["open-webui"])))
         = [RunBedrock.docker_info; RunBedrock.docker_images]
      /\ In (Line Stdout "Error: bedrock-gateway image not found!")
            (terminal (fst (run_script RunBedrock.run_bedrock
                              (with_images ["open-webui"])))))
  /\ (snd (run_script RunBedrock.run_bedrock
             (with_images ["bedrock-gateway"])) = 1
      /\ trace (fst (run_script RunBedrock.run_bedrock
                       (with_images ["bedrock-gateway"])))
         = [RunBedrock.docker_info; RunBedrock.docker_images;
            RunBedrock.docker_images]
      /\ In (Line Stdout "Error: open-webui image not found!")
            (terminal (fst (run_script RunBedrock.run_bedrock
                              (with_images ["bedrock-gateway"]))))).
Proof.
  split; [|split; [|split]].
  - apply (proj1 (RunBedrockSpec.prerequisites_checked without_env_file)).
    reflexivity.
  - apply (proj1 (proj2 (RunBedrockSpec.prerequisites_checked
                           without_daemon))).
    + reflexivity.
    + vm_compute. discriminate.
  - apply (proj1 (proj2 (proj2 (RunBedrockSpec.prerequisites_checked
                                  (with_images ["open-webui"]))))).
    all: reflexivity.
  - apply (proj2 (proj2 (proj2 (RunBedrockSpec.prerequisites_checked
                                  (with_images ["bedrock-gateway"]))))).
    all: reflexivity.
Defined.

Lemma started_through_compose_witness :
  filter (fun argv => negb (read_only argv))
         (trace (fst (run_script RunBedrock.run_bedrock ready)))
  = [RunBedrock.compose_down; RunBedrock.compose_up].
Proof.
  apply (RunBedrockSpec.started_through_compose ready); reflexivity.
Defined.

Import General Demo.

Lemma select_writes_an_enumerated_mode_witness :
  (KnowledgeBase = KnowledgeBase
   /\ ("chunked_vectorized" = "full_context"
       \/ "chunked_vectorized" = "chunked_vectorized"
       \/ "chunked_vectorized" = "hybrid"))
  /\ modes_valid
       (RAGConfig (fst (interact english
                          [choose ChatUpload 2; toggle EnableQueryExpansion true;
                           choose KnowledgeBase 0; choose ChatUpload 7]
                          opened))) = true.
Proof.
  split.
  - apply (proj1 (proj2 (GeneralSpec.select_writes_an_enumerated_mode
                           english KnowledgeBase 1 opened))).
    vm_compute. left. reflexivity.
  - apply (proj2 (proj2 (GeneralSpec.select_writes_an_enumerated_mode
                           english ChatUpload 0 opened))).
    reflexivity.
Defined.


End Witnesses.

From Stdlib Require Import Sorted Permutation.

(** ** Properties of the text filters *)

Module TextFacts.
Import Text.

Lemma length_append (a b : string) :
  String.length (a ++ b) = String.length a + String.length b.
Proof. induction a as [|c a IH]; cbn; [reflexivity | now rewrite IH]. Qed.

Lemma prefix_app (p s : string) :
  prefix p s = true <-> exists post, s = (p ++ post)%string.
Proof.
  revert s. induction p as [|a p IH]; intros s.
  - cbn. destruct s; split; eauto.
  - destruct s as [|b s]; cbn.
    + split; [discriminate | intros [post Hpost]; discriminate Hpost].
    + destruct (ascii_dec a b) as [<- | Hab].
      * rewrite IH. split; intros [post Hpost]; exists post; congruence.
      * split; [discriminate | intros [post Hpost]; congruence].
Qed.

(** [contains] is the substring relation. *)
Lemma contains_substring (pat s : string) :
  contains pat s = true
  <-> exists pre post, s = (pre ++ pat ++ post)%string.
Proof.
  induction s as [|c s IH]; cbn [contains]; rewrite orb_true_iff, prefix_app.
  - split.
    + intros [[post Hpost] | Hfalse]; [|discriminate Hfalse].
      now exists "", post.
    + intros (pre & post & Hs). left. destruct pre; [|discriminate Hs].
      now exists post.
  - rewrite IH. split.
    + intros [[post Hpost] | (pre & post & Hs)].
      * now exists "", post.
      * exists (String c pre), post. cbn. now rewrite Hs.
    + intros (pre & post & Hs). destruct pre as [|c' pre]; cbn in Hs.
      * left. now exists post.
      * right. exists pre, post. congruence.
Qed.

(** A three-character status contains [500] only by being [500]. *)
Lemma status_500 (code : string) :
  String.length code = 3 -> contains "500" code = (code =? "500").
Proof.
  intros Hlen. destruct (contains "500" code) eqn:Hc.
  - apply contains_substring in Hc as (pre & post & Hcode).
    subst code. rewrite !length_append in Hlen. cbn in Hlen.
    destruct pre; [|cbn in Hlen; lia].
    destruct post; [|cbn in Hlen; lia]. reflexivity.
  - symmetry. apply String.eqb_neq. intros ->. discriminate Hc.
Qed.





(** X1.  Every [grep -q pat] test of the two scripts ends with status 0
    when some line of its input has [pat] as a substring, and with
    status 1 otherwise. *)
Theorem grep_q_finds_substring (pat : string) (input : list string) :
  (grep_q pat input = 0
   <-> exists line pre post,
         In line input /\ line = (pre ++ pat ++ post)%string)
  /\ (grep_q pat input = 0 \/ grep_q pat input = 1).
Proof.
  unfold grep_q. destruct (existsb (contains pat) input) eqn:Hfound.
  - split; [|now left]. split; [|reflexivity]. intros _.
    apply existsb_exists in Hfound as (line & Hin & Hline).
    apply contains_substring in Hline as (pre & post & Hline).
    now exists line, pre, post.
  - split; [|now right]. split; [discriminate|].
    intros (line & pre & post & Hin & Hline).
    assert (Hyes : existsb (contains pat) input = true).
    { apply existsb_exists. exists line. split; [exact Hin|].
      apply contains_substring. now exists pre, post. }
    congruence.
Qed.

End TextFacts.

(** ** More properties of debug-openwebui.sh *)

Module DebugMore.
Import Shell Text Docker Debug ShellFacts Parts TextFacts.
Local Open Scope sh_scope.

Lemma shown_stdout_only (r : result) :
  shown Show Drop r = map (Line Stdout) (lines_of Stdout r).
Proof.
  unfold shown, lines_of. induction (output r) as [|[[] l] rest IH]; cbn;
    [reflexivity | now rewrite IH | exact IH].
Qed.

Lemma shown_stderr_only (r : result) :
  shown Pipe Show r = map (Line Stderr) (lines_of Stderr r).
Proof.
  unfold shown, lines_of. induction (output r) as [|[[] l] rest IH]; cbn;
    [reflexivity | exact IH | now rewrite IH].
Qed.

Lemma shown_nothing (r : result) :
  shown Pipe Pipe r = [] /\ shown Drop Drop r = [].
Proof.
  unfold shown. induction (output r) as [|[[] l] rest [IH1 IH2]]; cbn; auto.
Qed.


(** Run a script symbolically, splitting on a test only when its
    outcome is not already known. *)
Ltac recall_test :=
  match goal with
  | T : Nat.eqb (status ?r) 0 = _ |- context [Nat.eqb (status ?r) 0] =>
      rewrite T
  | T : existsb (contains ?p) ?l = _
    |- context [existsb (contains ?p) ?l] => rewrite T
  | T : is_file ?p ?w = _ |- context [is_file ?p ?w] => rewrite T
  | |- context [grep_q _ _] => unfold grep_q
  end.

Ltac wp_go :=
  unfold_commands;
  repeat (repeat recall_test; wp_step);
  cbv beta iota; cbn [host terminal trace exit_status].

Lemma ends_here {A} (l : list A) : l = [] ++ l.
Proof. reflexivity. Qed.

Lemma ends_after_cons {A} (a : A) (l before suffix : list A) :
  l = before ++ suffix -> a :: l = (a :: before) ++ suffix.
Proof. now intros ->. Qed.

Lemma ends_after_app {A} (l0 l before suffix : list A) :
  l = before ++ suffix -> l0 ++ l = (l0 ++ before) ++ suffix.
Proof. intros ->. apply app_assoc. Qed.

(** Find the given end of a list written with [::] and [++]. *)
Ltac ends_with :=
  eexists;
  repeat first [ apply ends_here
               | apply ends_after_cons
               | apply ends_after_app ].

Section Facts.
Context {W : Type} `{Host W}.

(** The named parts are the parts of the script. *)
Lemma diagnose_parts :
  diagnose
  = (echo "✅ Container is running" ;;
     echo "" ;;
     echo "📦 Container Details:" ;;
     command Show Show docker_ps_details ;;
     echo "" ;;
     echo "🔧 Environment Variables:" ;;
     env_report ;;
     echo "" ;;
     echo "📋 Recent Error Logs:" ;;
     log_report ;;
     echo "" ;;
     echo "💾 Database Status:" ;;
     data_probe ;;
     echo "" ;;
     echo "🌐 Network Tests:" ;;
     host_probe ;;
     port_check)%sh.
Proof. reflexivity. Qed.



(** X4.  The two probes never fail the script and hide the errors of
    the programs they run: the data directory listing is shown, or
    [Cannot access data directory] when [ls] fails; the reachability
    test prints [Yes] or [No] by the exit status of [ping] and nothing
    of its output. *)
Theorem probes_report_by_status (s : session W) :
  let ls := snd (run docker_exec_ls (host s)) in
  let ping := snd (run docker_exec_ping (host s)) in
  terminal (fst (data_probe s))
  = terminal s ++ map (Line Stdout) (lines_of Stdout ls)
      ++ (if Nat.eqb (status ls) 0 then []
          else [Line Stdout "Cannot access data directory"])
  /\ snd (data_probe s) = Ret 0
  /\ terminal (fst (host_probe s))
     = terminal s ++ [Partial "Container can reach host: ";
                      Line Stdout (if Nat.eqb (status ping) 0
                                   then "✅ Yes" else "❌ No")]
  /\ snd (host_probe s) = Ret 0.
Proof.
  cbv zeta. rewrite <- shown_stdout_only. repeat split.
  - change (wp data_probe
              (fun s' _ =>
                 terminal s'
                 = terminal s
                     ++ shown Show Drop (snd (run docker_exec_ls (host s)))
                     ++ (if Nat.eqb (status (snd (run docker_exec_ls (host s)))) 0
                         then []
                         else [Line Stdout "Cannot access data directory"]))
              s).
    unfold data_probe. wp_go;
      match goal with E : run _ _ = _ |- _ => rewrite E end; cbn [snd];
      match goal with E : Nat.eqb _ _ = _ |- _ => rewrite E end;
      rewrite <- ?app_assoc, ?app_nil_r; reflexivity.
  - change (wp data_probe (fun _ a => a = Ret 0) s).
    unfold data_probe. wp_go; reflexivity.
  - change (wp host_probe
              (fun s' _ =>
                 terminal s'
                 = terminal s
                     ++ [Partial "Container can reach host: ";
                         Line Stdout
                           (if Nat.eqb
                                 (status (snd (run docker_exec_ping (host s)))) 0
                            then "✅ Yes" else "❌ No")])
              s).
    unfold host_probe. wp_go;
      match goal with E : run _ _ = _ |- _ => rewrite E end; cbn [snd];
      match goal with E : Nat.eqb _ _ = _ |- _ => rewrite E end;
      rewrite (proj2 (shown_nothing _)), app_nil_r, <- app_assoc; reflexivity.
  - change (wp host_probe (fun _ a => a = Ret 0) s).
    unfold host_probe. wp_go; reflexivity.
Qed.

(** X5.  For a three-character status, as [curl] writes it, the port
    check prints [Returns 500] exactly for the status 500. *)
Theorem port_check_on_status (s : session W) (code : string) :
  let r := snd (run curl_status (host s)) in
  lines_of Stdout r = [code] ->
  String.length code = 3 ->
  terminal (fst (port_check s))
  = terminal s ++ [Partial "Port 3000 is accessible: "]
      ++ map (Line Stderr) (lines_of Stderr r)
      ++ [Line Stdout (if code =? "500" then "❌ Returns 500" else "✅ OK")].
Proof.
  cbv zeta. rewrite <- piped_stdout, <- shown_stderr_only. intros Hcode Hlen.
  rewrite <- (status_500 code Hlen).
  change (wp port_check
            (fun s' _ =>
               terminal s'
               = terminal s ++ [Partial "Port 3000 is accessible: "]
                   ++ shown Pipe Show (snd (run curl_status (host s)))
                   ++ [Line Stdout (if contains "500" code
                                    then "❌ Returns 500" else "✅ OK")]) s).
  unfold port_check. wp_go;
    match goal with E : run _ _ = _ |- _ => rewrite E in *; cbn [snd] in * end;
    match goal with E : existsb _ _ = _ |- _ => rewrite Hcode in E; cbn in E end;
    rewrite orb_false_r in *;
    match goal with E : contains _ _ = _ |- _ => rewrite E end;
    now rewrite <- !app_assoc.
Qed.

(** X6.  Whatever the machine, the script ends with status 0.  It
    prints its banner first, then what [docker ps] wrote to standard
    error, then either the diagnosis, opened by [Container is running],
    when a line of the listing mentions [open-webui], or else the
    advice with the [docker run] command and nothing more; the list of
    common fixes always comes last. *)
Theorem debug_transcript (w : W) :
  let r := snd (run docker_ps w) in
  let out := run_script debug_openwebui w in
  snd out = 0
  /\ (exists before, terminal (fst out) = before ++ common_fixes)
  /\ (exists diagnosis,
        terminal (fst out)
        = banner ++ map (Line Stderr) (lines_of Stderr r)
            ++ (if existsb (contains "open-webui") (lines_of Stdout r)
                then Line Stdout "✅ Container is running" :: diagnosis
                else advice ++ common_fixes)).
Proof.
  cbv zeta. rewrite <- piped_stdout, <- shown_stderr_only.
  split; [|split].
  - apply (wp_run_script debug_openwebui w (fun _ n => n = 0)).
    unfold debug_openwebui, diagnose, advise, port_check, start.
    wp_go; reflexivity.
  - apply (wp_run_script debug_openwebui w
             (fun s _ => exists before, terminal s = before ++ common_fixes)).
    unfold debug_openwebui, diagnose, advise, port_check, start.
    wp_go.
    all: repeat rewrite <- app_assoc; cbn [app]; unfold common_fixes.
    all: ends_with.
  - apply (wp_run_script debug_openwebui w
             (fun s _ =>
                exists diagnosis,
                  terminal s
                  = banner ++ shown Pipe Show (snd (run docker_ps w))
                      ++ (if existsb (contains "open-webui")
                               (piped Pipe Show (snd (run docker_ps w)))
                          then Line Stdout "✅ Container is running"
                                 :: diagnosis
                          else advice ++ common_fixes))).
    unfold debug_openwebui, diagnose, advise, port_check, start.
    wp_go.
    all: match goal with E : run docker_ps _ = _ |- _ => rewrite E end.
    all: cbn [snd].
    all: match goal with E : existsb _ (piped Pipe Show ?r) = _ |- _ =>
                           rewrite E end.
    all: unfold banner, advice, common_fixes.
    all: eexists.
    all: first [ exact [] | repeat rewrite <- app_assoc; cbn [app]; reflexivity ].
Qed.

End Facts.
End DebugMore.

(** ** More properties of run-bedrock.sh *)

Module RunBedrockMore.
Import Shell Text Docker RunBedrock ShellFacts Reports DebugMore.
Local Open Scope sh_scope.

Ltac same_run :=
  match goal with
  | E0 : run ?a ?m = _, E : run ?a ?m = _ |- _ =>
      rewrite E0 in E; injection E as <- <-
  end.

Ltac wp_along :=
  unfold_commands;
  repeat (repeat first [same_run | recall_test]; wp_step);
  cbv beta iota; cbn [host terminal trace exit_status].

Ltac recall_all :=
  repeat match goal with
         | T : is_file _ _ = _ |- _ => rewrite T
         | T : Nat.eqb (status _) 0 = _ |- _ => rewrite T
         | T : existsb (contains _) _ = _ |- _ => rewrite T
         end.

Ltac name_the_runs w :=
  destruct (run docker_info w) as [?w ?info] eqn:?;
  cbn [fst snd];
  repeat match goal with
         | |- context [run ?a ?m] =>
             is_var m; destruct (run a m) as [?w ?r] eqn:?; cbn [fst snd]
         end.

Section Facts.
Context {W : Type} `{Host W}.

(** X7.  The script ends with status 0 exactly when the four
    prerequisite checks pass and, after the start, [docker ps] lists
    both [bedrock-gateway] and [open-webui]; in every other case the
    status is 1.  The exit statuses of [docker-compose down] and
    [docker-compose up] play no part. *)
Theorem run_bedrock_status (w : W) :
  let info := run docker_info w in
  let gateway := run docker_images (fst info) in
  let webui := run docker_images (fst gateway) in
  let down := run compose_down (fst webui) in
  let up := run compose_up (fst down) in
  let slept := run sleep_5 (fst up) in
  let first_ps := run docker_ps (fst slept) in
  let second_ps := run docker_ps (fst first_ps) in
  let listed name r := existsb (contains name) (lines_of Stdout r) in
  snd (run_script run_bedrock w)
  = if is_file ".env.bedrock" w
       && Nat.eqb (status (snd info)) 0
       && listed "bedrock-gateway" (snd gateway)
       && listed "open-webui" (snd webui)
       && listed "bedrock-gateway" (snd first_ps)
       && listed "open-webui" (snd second_ps)
    then 0 else 1.
Proof.
  cbv zeta. name_the_runs w. rewrite <- !piped_stdout.
  lazymatch goal with
  | |- snd _ = ?verdict =>
      apply (wp_run_script run_bedrock w (fun _ n => n = verdict))
  end.
  unfold run_bedrock, check_env_file, check_docker, check_gateway_image,
    check_webui_image, restart_stack, await_services, start.
  wp_along; recall_all; rewrite ?andb_false_r; reflexivity.
Qed.

(** X8.  On every path the machine at the end is the one the started
    programs lead to, and the programs that are not read-only are
    [docker-compose down] and [docker-compose up], in that order, when
    the four checks pass, and none at all otherwise. *)
Theorem run_bedrock_changes (w : W) :
  let info := run docker_info w in
  let gateway := run docker_images (fst info) in
  let webui := run docker_images (fst gateway) in
  let listed name r := existsb (contains name) (lines_of Stdout r) in
  let out := run_script run_bedrock w in
  filter (fun argv => negb (read_only argv)) (trace (fst out))
  = (if is_file ".env.bedrock" w
        && Nat.eqb (status (snd info)) 0
        && listed "bedrock-gateway" (snd gateway)
        && listed "open-webui" (snd webui)
     then [compose_down; compose_up] else [])
  /\ host (fst out) = replay (trace (fst out)) w.
Proof.
  cbv zeta. name_the_runs w. rewrite <- !piped_stdout.
  lazymatch goal with
  | |- _ = ?changes /\ _ =>
      apply (wp_run_script run_bedrock w
               (fun s _ =>
                  filter (fun argv => negb (read_only argv)) (trace s) = changes
                  /\ host s = replay (trace s) w))
  end.
  unfold run_bedrock, check_env_file, check_docker, check_gateway_image,
    check_webui_image, restart_stack, await_services, start.
  wp_along; recall_all; rewrite ?andb_false_r; cbn [app];
    (split; [reflexivity | replayed]).
Qed.

(** X9.  When the four checks pass, the last thing printed is the
    success report if [docker ps] lists both containers after the
    start, and the failure report otherwise. *)
Theorem run_bedrock_final_report (w : W) :
  let info := run docker_info w in
  let gateway := run docker_images (fst info) in
  let webui := run docker_images (fst gateway) in
  let down := run compose_down (fst webui) in
  let up := run compose_up (fst down) in
  let slept := run sleep_5 (fst up) in
  let first_ps := run docker_ps (fst slept) in
  let second_ps := run docker_ps (fst first_ps) in
  let listed name r := existsb (contains name) (lines_of Stdout r) in
  is_file ".env.bedrock" w = true ->
  status (snd info) = 0 ->
  listed "bedrock-gateway" (snd gateway) = true ->
  listed "open-webui" (snd webui) = true ->
  exists before,
    terminal (fst (run_script run_bedrock w))
    = before ++ (if listed "bedrock-gateway" (snd first_ps)
                    && listed "open-webui" (snd second_ps)
                 then success_report else failure_report).
Proof.
  cbv zeta. name_the_runs w. rewrite <- !piped_stdout.
  intros Hfile Hinfo Hgateway Hwebui. apply Nat.eqb_eq in Hinfo.
  lazymatch goal with
  | |- exists before, _ = before ++ ?report =>
      apply (wp_run_script run_bedrock w
               (fun s _ => exists before, terminal s = before ++ report))
  end.
  unfold run_bedrock, check_env_file, check_docker, check_gateway_image,
    check_webui_image, restart_stack, await_services, start.
  wp_along; recall_all; rewrite ?andb_false_r;
    unfold success_report, failure_report;
    repeat rewrite <- app_assoc; cbn [app]; ends_with.
Qed.

End Facts.
End RunBedrockMore.

(** ** More properties of General.svelte *)

Module GeneralMore.
Import General GeneralSpec Pages.

Section Facts.
Context {number : Type} {E : Type} (t : string -> string).

(** A page whose [RAGConfig] is the object [r], split by the export
    guard and the advanced-retrieval switch. *)
Ltac object_cases p r Hr :=
  let cfg := fresh "cfg" in
  let uh := fresh "uh" in
  let rc := fresh "rc" in
  let e := fresh "e" in
  destruct p as [cfg uh rc e]; cbn [RAGConfig config updateHandler parent] in *;
  subst rc;
  unfold dispatch, rendered, render in *; cbn [config RAGConfig] in *;
  destruct (coalesce (optional (optional cfg features) enable_admin_export)
                     true);
  destruct r as [[] ? ? ? ? ? ? ?].

Lemma set_flag_get (f g : flag) (b : bool) (r : rag_config number) :
  get_flag g (set_flag f b r) = if flag_eqb g f then b else get_flag g r.
Proof. destruct f, g; reflexivity. Qed.

Lemma set_mode_get (m k : mode) (v : string) (r : rag_config number) :
  get_mode k (set_mode m v r) = if mode_eqb k m then v else get_mode k r.
Proof. destruct m, k; reflexivity. Qed.

Lemma set_limit_get (l k : limit) (v : nullable number) (r : rag_config number) :
  get_limit k (set_limit l v r) = if limit_eqb k l then v else get_limit k r.
Proof. destruct l, k; reflexivity. Qed.

Lemma set_limit_again (l : limit) (u v : nullable number) (r : rag_config number) :
  set_limit l v (set_limit l u r) = set_limit l v r.
Proof. destruct l; reflexivity. Qed.

(** X10.  When [RAGConfig] is an object, the advanced-retrieval switch
    and the two file limit inputs are on the page whatever the switch
    and [$config] say. *)
Theorem switch_and_limits_always_shown
        (cfg : nullable config_t) (r : rag_config number) :
  rendered (checkbox_of UseAdvancedRetrieval) (render t cfg (Val r)) = true
  /\ rendered (number_of MaxSize) (render t cfg (Val r)) = true
  /\ rendered (number_of MaxCount) (render t cfg (Val r)) = true.
Proof.
  unfold rendered, render.
  destruct (coalesce (optional (optional cfg features) enable_admin_export)
                     true);
    destruct r as [[] ? ? ? ? ? ? ?]; repeat split.
Qed.

(** X11.  A [change] event on a rendered checkbox writes the new state
    to the checkbox's own field, leaving every other field as it was,
    and then calls [updateHandler], which sees the configuration as
    written. *)
Theorem toggle_writes_then_notifies
        (p : page number E) (r : rag_config number) (f : flag) (b : bool) :
  RAGConfig p = Val r ->
  rendered (checkbox_of f) (render t (config p) (RAGConfig p)) = true ->
  dispatch t (toggle f b) p
  = (notified (with_rag (set_flag f b) p),
     [wrote_flag f b; called_updateHandler (Val (set_flag f b r))])
  /\ get_flag f (set_flag f b r) = b
  /\ (forall g, g <> f -> get_flag g (set_flag f b r) = get_flag g r)
  /\ (forall m, get_mode m (set_flag f b r) = get_mode m r)
  /\ (forall l, get_limit l (set_flag f b r) = get_limit l r).
Proof.
  intros Hr Hshown. split.
  - object_cases p r Hr; destruct f; try discriminate Hshown; reflexivity.
  - split; [destruct f; reflexivity|].
    split; [intros g Hg; destruct f, g; congruence || reflexivity|].
    split; [intros []; reflexivity | intros []; reflexivity].
Qed.

(** X12.  Choosing an option of a rendered processing-mode select
    writes that option's value to the select's own mode, which is then
    one of the three valid modes whatever it was before, leaves every
    other field as it was, and then calls [updateHandler] with the
    configuration as written. *)
Theorem choose_writes_then_notifies
        (p : page number E) (r : rag_config number) (m : mode) (i : nat)
        (v : string) :
  RAGConfig p = Val r ->
  rendered (select_of m) (render t (config p) (RAGConfig p)) = true ->
  nth_error ["full_context"; "chunked_vectorized"; "hybrid"] i = Some v ->
  dispatch t (choose m i) p
  = (notified (with_rag (set_mode m v) p),
     [wrote_mode m v; called_updateHandler (Val (set_mode m v r))])
  /\ get_mode m (set_mode m v r) = v
  /\ valid_mode (get_mode m (set_mode m v r)) = true
  /\ (forall k, k <> m -> get_mode k (set_mode m v r) = get_mode k r)
  /\ (forall f, get_flag f (set_mode m v r) = get_flag f r)
  /\ (forall l, get_limit l (set_mode m v r) = get_limit l r).
Proof.
  intros Hr Hshown Hv.
  assert (Hget : get_mode m (set_mode m v r) = v) by (destruct m; reflexivity).
  split; [|split; [exact Hget | split]].
  - destruct i as [|[|[|[|?]]]]; cbn in Hv; try discriminate Hv;
      injection Hv as <-;
      object_cases p r Hr; destruct m; try discriminate Hshown; reflexivity.
  - rewrite Hget.
    destruct i as [|[|[|[|?]]]]; cbn in Hv; try discriminate Hv;
      injection Hv as <-; reflexivity.
  - split; [intros k Hk; destruct m, k; congruence || reflexivity|].
    split; [intros []; reflexivity | intros []; reflexivity].
Qed.

(** *** Number inputs *)

Lemma type_in_object (l : limit) (v : nullable number)
      (p : page number E) (r : rag_config number) :
  RAGConfig p = Val r ->
  dispatch t (type_in l v) p = (with_rag (set_limit l v) p, [wrote_limit l v]).
Proof. intros Hr. object_cases p r Hr; destruct l; reflexivity. Qed.

Lemma commit_object (l : limit) (p : page number E) (r : rag_config number) :
  RAGConfig p = Val r ->
  dispatch t (commit l) p = (notified p, [called_updateHandler (Val r)]).
Proof. intros Hr. object_cases p r Hr; destruct l; reflexivity. Qed.

Lemma interact_app (gs1 gs2 : list (gesture number)) (p : page number E) :
  interact t (gs1 ++ gs2) p
  = (fst (interact t gs2 (fst (interact t gs1 p))),
     snd (interact t gs1 p) ++ snd (interact t gs2 (fst (interact t gs1 p)))).
Proof.
  revert p. induction gs1 as [|g gs1 IH]; intros p.
  - cbn. now destruct (interact t gs2 p).
  - cbn [app]. rewrite !interact_cons, IH. cbn [fst snd].
    now rewrite app_assoc.
Qed.

Lemma typing_object (l : limit) (vs : list (nullable number))
      (p : page number E) (r : rag_config number) :
  RAGConfig p = Val r ->
  interact t (map (type_in l) vs) p
  = (with_rag (fun r => fold_left (fun r v => set_limit l v r) vs r) p,
     map (wrote_limit l) vs).
Proof.
  revert p r. induction vs as [|v vs IH]; intros p r Hr.
  - destruct p as [cfg uh rc e]. cbn in Hr. subst rc. reflexivity.
  - cbn [map]. rewrite interact_cons, (type_in_object l v p r Hr).
    cbn [fst snd].
    rewrite (IH (with_rag (set_limit l v) p) (set_limit l v r)).
    + destruct p as [cfg uh rc e]. cbn in Hr. subst rc. reflexivity.
    + destruct p as [cfg uh rc e]. cbn in Hr. subst rc. reflexivity.
Qed.

Lemma last_limit_wins (l : limit) (vs : list (nullable number))
      (v : nullable number) (r : rag_config number) :
  fold_left (fun r v => set_limit l v r) (vs ++ [v]) r = set_limit l v r.
Proof.
  revert r. induction vs as [|u vs IH]; intros r; [reflexivity|].
  cbn [app fold_left]. rewrite IH.
  revert u. clear IH.
  enough (forall u, set_limit l v (set_limit l u r) = set_limit l v r) by auto.
  intros u. apply set_limit_again.
Qed.

(** X13.  Typing in a number input writes every intermediate value
    and calls nobody; the [change] event that closes the edit calls
    [updateHandler] once, with the last value typed in the edited limit
    and every other field as it was. *)
Theorem number_edit_saves_last_value
        (p : page number E) (r : rag_config number) (l : limit)
        (vs : list (nullable number)) (v : nullable number) :
  RAGConfig p = Val r ->
  interact t (map (type_in l) (vs ++ [v]) ++ [commit l]) p
  = (notified (with_rag (set_limit l v) p),
     map (wrote_limit l) (vs ++ [v])
       ++ [called_updateHandler (Val (set_limit l v r))])
  /\ get_limit l (set_limit l v r) = v
  /\ (forall k, k <> l -> get_limit k (set_limit l v r) = get_limit k r)
  /\ (forall f, get_flag f (set_limit l v r) = get_flag f r)
  /\ (forall m, get_mode m (set_limit l v r) = get_mode m r).
Proof.
  intros Hr. split.
  - rewrite interact_app, (typing_object l (vs ++ [v]) p r Hr).
    cbn [fst snd]. rewrite interact_cons. cbn [interact fst snd].
    rewrite app_nil_r.
    rewrite (commit_object l _ (set_limit l v r)).
    + cbn [fst snd]. f_equal.
      destruct p as [cfg uh rc e]. cbn in Hr. subst rc.
      unfold notified, with_rag. cbn. now rewrite !last_limit_wins.
    + destruct p as [cfg uh rc e]. cbn in Hr. subst rc.
      cbn. now rewrite last_limit_wins.
  - split; [destruct l; reflexivity|].
    split; [intros k Hk; destruct l, k; congruence || reflexivity|].
    split; [intros []; reflexivity | intros []; reflexivity].
Qed.

(** *** What the form never does *)

Lemma dispatch_without_object (g : gesture number) (p : page number E) :
  (forall r, RAGConfig p <> Val r) ->
  fst (dispatch t g p) = p
  /\ forallb is_toast (snd (dispatch t g p)) = true.
Proof.
  intros Hnull. destruct p as [cfg uh rc e]. cbn in Hnull.
  unfold dispatch, render; cbn [config RAGConfig].
  destruct (coalesce (optional (optional cfg features) enable_admin_export)
                     true);
    destruct rc as [| |r]; try (exfalso; now apply (Hnull r));
    destruct g as [|[] ?|[] ?|[] ?|[]]; split; reflexivity.
Qed.

(** X14.  While [RAGConfig] is [null] or [undefined], no sequence of
    events changes the page: nothing is written and [updateHandler] is
    never called; the only possible effect is the export toast. *)
Theorem form_is_inert_without_object
        (gs : list (gesture number)) (p : page number E) :
  (forall r, RAGConfig p <> Val r) ->
  fst (interact t gs p) = p
  /\ forallb is_toast (snd (interact t gs p)) = true.
Proof.
  intros Hnull. induction gs as [|g gs [IHp IHl]]; [split; reflexivity|].
  rewrite interact_cons. cbn [fst snd].
  destruct (dispatch_without_object g p Hnull) as [-> Hl].
  split; [exact IHp|]. now rewrite forallb_app, Hl, IHl.
Qed.


(** X16.  No sequence of events changes the [$config] store or the
    [updateHandler] prop, and none turns [RAGConfig] from an object
    into [null] or back. *)
Theorem props_survive_interaction
        (gs : list (gesture number)) (p : page number E) :
  config (fst (interact t gs p)) = config p
  /\ updateHandler (fst (interact t gs p)) = updateHandler p
  /\ is_object (RAGConfig (fst (interact t gs p))) = is_object (RAGConfig p).
Proof.
  revert p. induction gs as [|g gs IH]; intros p.
  - cbn. repeat split; auto.
  - rewrite interact_cons. cbn [fst].
    destruct (IH (fst (dispatch t g p))) as (-> & -> & ->).
    destruct (dispatch_keeps_props t g p) as [-> ->].
    repeat split.
    destruct (RAGConfig p) as [| |r] eqn:Hr.
    + destruct (dispatch_without_object g p) as [-> _];
        [rewrite Hr; discriminate | now rewrite Hr].
    + destruct (dispatch_without_object g p) as [-> _];
        [rewrite Hr; discriminate | now rewrite Hr].
    + destruct (dispatch_keeps_object t g p) as [r' ->]; [now exists r|].
      reflexivity.
Qed.

(** *** Hidden options *)

Lemma set_flag_again (f : flag) (a b : bool) (r : rag_config number) :
  set_flag f b (set_flag f a r) = set_flag f b r.
Proof. destruct f; reflexivity. Qed.

Lemma hidden_option_is_inert (g : gesture number) (p : page number E) :
  advanced_on (RAGConfig p) = false ->
  In (target g) sub_options ->
  dispatch t g p = (p, []).
Proof.
  intros Hoff Hg. destruct p as [cfg uh rc e]. cbn in Hoff.
  unfold dispatch, render; cbn [config RAGConfig].
  destruct (coalesce (optional (optional cfg features) enable_admin_export)
                     true);
    destruct rc as [| |[[] ? ? ? ? ? ? ?]]; try discriminate Hoff;
    destruct g as [|[] ?|[] ?|[] ?|[]]; cbn in Hg;
    try reflexivity; exfalso; intuition discriminate.
Qed.

Lemma hidden_options_are_inert (gs : list (gesture number)) (p : page number E) :
  advanced_on (RAGConfig p) = false ->
  Forall (fun g => In (target g) sub_options) gs ->
  interact t gs p = (p, []).
Proof.
  intros Hoff Hgs. induction Hgs as [|g gs Hg Hgs IH]; [reflexivity|].
  rewrite interact_cons, (hidden_option_is_inert g p Hoff Hg).
  cbn [fst snd]. now rewrite IH.
Qed.

Lemma switch_object (b : bool) (p : page number E) (r : rag_config number) :
  RAGConfig p = Val r ->
  dispatch t (toggle UseAdvancedRetrieval b) p
  = (notified (with_rag (set_flag UseAdvancedRetrieval b) p),
     [wrote_flag UseAdvancedRetrieval b;
      called_updateHandler (Val (set_flag UseAdvancedRetrieval b r))]).
Proof. intros Hr. object_cases p r Hr; reflexivity. Qed.

(** X17.  Switching advanced retrieval off hides the five options:
    events aimed at them then do nothing, and when the switch is turned
    on again every option has the value it had before. *)
Theorem hidden_options_keep_their_values
        (p : page number E) (r : rag_config number)
        (gs : list (gesture number)) :
  RAGConfig p = Val r ->
  Forall (fun g => In (target g) sub_options) gs ->
  let off := set_flag UseAdvancedRetrieval false r in
  let on := set_flag UseAdvancedRetrieval true r in
  snd (interact t (toggle UseAdvancedRetrieval false :: gs
                     ++ [toggle UseAdvancedRetrieval true]) p)
  = [wrote_flag UseAdvancedRetrieval false; called_updateHandler (Val off);
     wrote_flag UseAdvancedRetrieval true; called_updateHandler (Val on)]
  /\ RAGConfig (fst (interact t (toggle UseAdvancedRetrieval false :: gs
                                   ++ [toggle UseAdvancedRetrieval true]) p))
     = Val on
  /\ (forall f, f <> UseAdvancedRetrieval -> get_flag f on = get_flag f r)
  /\ (forall m, get_mode m on = get_mode m r)
  /\ (forall l, get_limit l on = get_limit l r).
Proof.
  intros Hr Hgs. cbv zeta.
  rewrite interact_cons, (switch_object false p r Hr). cbn [fst snd].
  set (q := notified (with_rag (set_flag UseAdvancedRetrieval false) p)).
  assert (Hq : RAGConfig q = Val (set_flag UseAdvancedRetrieval false r)).
  { subst q. destruct p as [cfg uh rc e]. cbn in Hr. subst rc. reflexivity. }
  rewrite interact_app, (hidden_options_are_inert gs q); [|now rewrite Hq|exact Hgs].
  cbn [fst snd app]. rewrite interact_cons. cbn [interact fst snd].
  rewrite (switch_object true q _ Hq). cbn [fst snd app].
  rewrite set_flag_again. split; [reflexivity|]. split.
  - subst q. destruct p as [cfg uh rc e]. cbn in Hr. subst rc. cbn.
    now rewrite set_flag_again.
  - split; [intros [] Hf; congruence || reflexivity|].
    split; intros []; reflexivity.
Qed.

(** *** How often the parent is called *)

Lemma dispatch_calls_at_most_once (g : gesture number) (p : page number E) :
  length (filter is_update (snd (dispatch t g p)))
  <= (if is_change g then 1 else 0).
Proof.
  destruct p as [cfg uh rc e].
  unfold dispatch, render; cbn [config RAGConfig].
  destruct (coalesce (optional (optional cfg features) enable_admin_export)
                     true);
    destruct rc as [| |[[] ? ? ? ? ? ? ?]];
    destruct g as [|[] ?|[] [|[|[|[|?]]]]|[] ?|[]]; cbn; lia.
Qed.

(** X18.  [updateHandler] is called at most once per [change] event;
    [input] events and clicks on the export button never call it. *)
Theorem one_call_per_change (gs : list (gesture number)) (p : page number E) :
  length (filter is_update (snd (interact t gs p)))
  <= length (filter is_change gs).
Proof.
  revert p. induction gs as [|g gs IH]; intros p; [cbn; lia|].
  rewrite interact_cons. cbn [snd filter].
  rewrite filter_app, length_app.
  pose proof (dispatch_calls_at_most_once g p) as Hg.
  pose proof (IH (fst (dispatch t g p))) as Hgs.
  destruct (is_change g); cbn [length]; lia.
Qed.

End Facts.
End GeneralMore.

(** ** More instances *)

Module MoreWitnesses.
Import Shell Text Docker Sim General Pages Demo.

Lemma port_check_on_status_witness :
  terminal (fst (Debug.port_check (start (serving "500"))))
  = [Partial "Port 3000 is accessible: "; Line Stdout "❌ Returns 500"].
Proof.
  exact (DebugMore.port_check_on_status (start (serving "500")) "500"
           eq_refl eq_refl).
Defined.

Lemma run_bedrock_final_report_witness :
  exists before,
    terminal (fst (run_script RunBedrock.run_bedrock ready))
    = before ++ Reports.success_report.
Proof.
  exact (RunBedrockMore.run_bedrock_final_report ready
           eq_refl eq_refl eq_refl eq_refl).
Defined.

Lemma toggle_writes_then_notifies_witness :
  snd (dispatch english (toggle EnableQueryExpansion true) opened)
  = [wrote_flag EnableQueryExpansion true;
     called_updateHandler (Val (set_flag EnableQueryExpansion true stored))].
Proof.
  exact (f_equal snd
           (proj1 (GeneralMore.toggle_writes_then_notifies
                     english opened stored EnableQueryExpansion true
                     eq_refl eq_refl))).
Defined.

Lemma choose_writes_then_notifies_witness :
  valid_mode (get_mode KnowledgeBase
                (set_mode KnowledgeBase "chunked_vectorized" stored)) = true.
Proof.
  apply (GeneralMore.choose_writes_then_notifies
           english opened stored KnowledgeBase 1 "chunked_vectorized");
    reflexivity.
Defined.

Lemma number_edit_saves_last_value_witness :
  get_limit MaxCount (set_limit MaxCount (Val 3) stored) = Val 3.
Proof.
  apply (GeneralMore.number_edit_saves_last_value
           english opened stored MaxCount [Val 1; Null] (Val 3)).
  reflexivity.
Defined.

Lemma form_is_inert_without_object_witness :
  fst (interact english
         [toggle UseAdvancedRetrieval true; type_in MaxSize (Val 4);
          commit MaxSize; click_export]
         (mount Undefined [] (Some save) Undefined))
  = mount Undefined [] (Some save) Undefined.
Proof.
  apply (GeneralMore.form_is_inert_without_object english).
  intros r. discriminate.
Defined.

Lemma hidden_options_keep_their_values_witness :
  RAGConfig
    (fst (interact english
            (toggle UseAdvancedRetrieval false
               :: [toggle EnableSemanticChunking true; choose ChatUpload 2]
               ++ [toggle UseAdvancedRetrieval true])
            opened))
  = Val (set_flag UseAdvancedRetrieval true stored).
Proof.
  apply (GeneralMore.hidden_options_keep_their_values
           english opened stored
           [toggle EnableSemanticChunking true; choose ChatUpload 2]).
  - reflexivity.
  - repeat (apply Forall_cons; [cbn; auto 10|]). apply Forall_nil.
Defined.

End MoreWitnesses.
